(** * api-get.py: endpoint discovery, probing and report rows

    A shallow embedding of [src/api-get.py] and the properties of its
    normalizer, method filter, probe selection, probe executor, result
    aggregation and report rows.

    Conventions of the embedding.
    - A Python [str] is a Rocq [string]: the bytes of its UTF-8 encoding.
      What Python does to a text outside the ASCII range ([upper], [strip],
      [urlparse], the class [\w]) follows the Unicode tables; it is not
      spelled out but taken from a [pylib], which is consulted only on such
      texts.
    - A Python [int] is a [Z].
    - A decoded JSON value is a [json]; a [dict] is an association list in
      insertion order whose lookup takes the first binding of a key.
    - An endpoint [dict] built by [extract_endpoints] is a record: the seven
      keys written at creation are plain fields, the two keys attached later
      ([status_code], [content_length]) are [option] fields, [None] while the
      key is absent.
    - Code that may raise returns a [result]; code that talks to the network
      or writes files runs in the state monad [Run] over a [world].
    - [print] and [time.sleep] are left out. *)

From Stdlib Require Import ZArith String Ascii List Bool Lia DecimalString.
From stdpp Require Import base list.
Import ListNotations.

Open Scope string_scope.
Open Scope Z_scope.

(* ================================================================== *)
(** ** Python strings *)

Module PyStr.

Definition code (c : ascii) : N := N_of_ascii c.

Definition is_lower (c : ascii) : bool := ((97 <=? code c) && (code c <=? 122))%N.
Definition is_upper (c : ascii) : bool := ((65 <=? code c) && (code c <=? 90))%N.
Definition is_digit (c : ascii) : bool := ((48 <=? code c) && (code c <=? 57))%N.
Definition is_alpha (c : ascii) : bool := is_lower c || is_upper c.

(** [str.isspace] on the ASCII range: TAB, LF, VT, FF, CR, FS, GS, RS, US
    and the space. *)
Definition is_space (c : ascii) : bool :=
  (((9 <=? code c) && (code c <=? 13)) || ((28 <=? code c) && (code c <=? 32)))%N.

Definition upper_char (c : ascii) : ascii :=
  if is_lower c then ascii_of_N (code c - 32) else c.
Definition lower_char (c : ascii) : ascii :=
  if is_upper c then ascii_of_N (code c + 32) else c.

Fixpoint map_chars (f : ascii -> ascii) (s : string) : string :=
  match s with
  | EmptyString => EmptyString
  | String c s' => String (f c) (map_chars f s')
  end.

(** [s.upper()] and [s.lower()]. *)
Definition upper : string -> string := map_chars upper_char.
Definition lower : string -> string := map_chars lower_char.

(** [s.startswith(p)]. *)
Fixpoint startswith (s p : string) {struct p} : bool :=
  match p, s with
  | EmptyString, _ => true
  | String a p', String b s' => Ascii.eqb a b && startswith s' p'
  | String _ _, EmptyString => false
  end.

(** [c in s] for a one-character [c]. *)
Fixpoint contains_char (c : ascii) (s : string) : bool :=
  match s with
  | EmptyString => false
  | String a s' => Ascii.eqb a c || contains_char c s'
  end.

(** The last character of [s] is [c]. *)
Fixpoint ends_with_char (c : ascii) (s : string) : bool :=
  match s with
  | EmptyString => false
  | String a EmptyString => Ascii.eqb a c
  | String _ s' => ends_with_char c s'
  end.

Definition is_empty (s : string) : bool :=
  match s with EmptyString => true | _ => false end.

(** Drop the characters satisfying [p] from the left end. *)
Fixpoint lstrip_by (p : ascii -> bool) (s : string) : string :=
  match s with
  | EmptyString => EmptyString
  | String c s' => if p c then lstrip_by p s' else s
  end.

(** Drop the characters satisfying [p] from the right end. *)
Fixpoint rstrip_by (p : ascii -> bool) (s : string) : string :=
  match s with
  | EmptyString => EmptyString
  | String c s' =>
      let r := rstrip_by p s' in
      if is_empty r && p c then EmptyString else String c r
  end.

(** [s.rstrip(c)] for a one-character [c]. *)
Definition rstrip (c : ascii) (s : string) : string :=
  rstrip_by (fun a => Ascii.eqb a c) s.

(** [s.strip()]. *)
Definition strip (s : string) : string := lstrip_by is_space (rstrip_by is_space s).

(** [s.split(c)] for a one-character separator: never the empty list. *)
Fixpoint split (sep : ascii) (s : string) : list string :=
  match s with
  | EmptyString => [EmptyString]
  | String c s' =>
      if Ascii.eqb c sep then EmptyString :: split sep s'
      else match split sep s' with
           | [] => [String c EmptyString]
           | w :: ws => String c w :: ws
           end
  end.

(** [s.replace(old, new)] for a non-empty [old]; [skip] counts the
    characters of a match still to be passed over. *)
Fixpoint replace_from (old new : string) (skip : nat) (s : string) : string :=
  match s with
  | EmptyString => EmptyString
  | String c s' =>
      match skip with
      | S k => replace_from old new k s'
      | O =>
          if String.prefix old s
          then new ++ replace_from old new (Nat.pred (String.length old)) s'
          else String c (replace_from old new O s')
      end
  end.
Definition replace (old new s : string) : string := replace_from old new O s.

(** [str(n)] for an [int]. *)
Definition str_of_Z (n : Z) : string := NilZero.string_of_int (Z.to_int n).

(** Every byte is in the ASCII range. *)
Fixpoint is_ascii (s : string) : bool :=
  match s with
  | EmptyString => true
  | String c s' => (code c <? 128)%N && is_ascii s'
  end.

(** [x in l] for a list of strings. *)
Definition mem (x : string) (l : list string) : bool := existsb (String.eqb x) l.

End PyStr.

(* ================================================================== *)
(** ** Results of code that may raise *)

(** The exception classes that matter to the handlers of the program, all of
    them subclasses of [Exception].  [Timeout], [ConnectionError] and the
    rest of the first group are the classes of [requests.exceptions]. *)
Inductive pyexc : Type :=
  | Timeout | ConnectTimeout | ReadTimeout
  | ConnectionError | ProxyError | SSLError
  | HTTPError | TooManyRedirects | MissingSchema | InvalidSchema | InvalidURL
  | ChunkedEncodingError | ContentDecodingError | RequestException
  | JSONDecodeError
  | AttributeError | KeyError | TypeError | ValueError | OSError
  | OtherException (name : string).

(** [isinstance(e, requests.exceptions.Timeout)]. *)
Definition is_Timeout (e : pyexc) : bool :=
  match e with Timeout | ConnectTimeout | ReadTimeout => true | _ => false end.

(** [isinstance(e, requests.exceptions.ConnectionError)]: [ConnectTimeout]
    inherits from both [ConnectionError] and [Timeout]. *)
Definition is_ConnectionError (e : pyexc) : bool :=
  match e with
  | ConnectionError | ProxyError | SSLError | ConnectTimeout => true
  | _ => false
  end.

(** [isinstance(e, requests.exceptions.RequestException)]. *)
Definition is_RequestException (e : pyexc) : bool :=
  match e with
  | Timeout | ConnectTimeout | ReadTimeout
  | ConnectionError | ProxyError | SSLError
  | HTTPError | TooManyRedirects | MissingSchema | InvalidSchema | InvalidURL
  | ChunkedEncodingError | ContentDecodingError | RequestException => true
  | _ => false
  end.

(** How a call ends: it returns, it raises an [Exception], or [sys.exit]
    was called ([SystemExit] is not an [Exception], no handler of the
    program catches it). *)
Inductive result (A : Type) : Type :=
  | Returned (a : A)
  | Raised (e : pyexc)
  | Exited (status : Z).
Arguments Returned {A} a.
Arguments Raised {A} e.
Arguments Exited {A} status.

Definition rbind {A B} (r : result A) (k : A -> result B) : result B :=
  match r with
  | Returned a => k a
  | Raised e => Raised e
  | Exited n => Exited n
  end.

(* ================================================================== *)
(** ** Decoded JSON documents *)

#[local] Set Warnings "-register-all".
Inductive json : Type :=
  | JNull
  | JBool (b : bool)
  | JInt (n : Z)
  | JStr (s : string)
  | JArr (items : list json)
  | JObj (fields : list (string * json)).

Module Json.

(** Python truth value of a decoded document. *)
Definition truthy (j : json) : bool :=
  match j with
  | JNull => false
  | JBool b => b
  | JInt n => negb (n =? 0)
  | JStr s => negb (PyStr.is_empty s)
  | JArr l => match l with [] => false | _ => true end
  | JObj l => match l with [] => false | _ => true end
  end.

Fixpoint assoc (k : string) (l : list (string * json)) : option json :=
  match l with
  | [] => None
  | (k', v) :: l' => if String.eqb k k' then Some v else assoc k l'
  end.

(** [j.get(k, dflt)]: only a [dict] has [get]. *)
Definition get (j : json) (k : string) (dflt : json) : result json :=
  match j with
  | JObj l => Returned (default dflt (assoc k l))
  | _ => Raised AttributeError
  end.

(** [j.items()]: only a [dict] has [items]. *)
Definition items (j : json) : result (list (string * json)) :=
  match j with
  | JObj l => Returned l
  | _ => Raised AttributeError
  end.

(** [j[0]]. *)
Definition first (j : json) : result json :=
  match j with
  | JArr (x :: _) => Returned x
  | JArr [] => Raised (OtherException "IndexError")
  | JStr (String c _) => Returned (JStr (String c EmptyString))
  | JStr EmptyString => Raised (OtherException "IndexError")
  | JObj _ => Raised KeyError
  | _ => Raised TypeError
  end.

(** [j.rstrip('/')]: only a [str] has [rstrip]. *)
Definition rstrip_slash (j : json) : result string :=
  match j with
  | JStr s => Returned (PyStr.rstrip "/" s)
  | _ => Raised AttributeError
  end.

(** [a or b]. *)
Definition or (a b : json) : json := if truthy a then a else b.

End Json.

(* ================================================================== *)
(** ** Endpoint descriptors *)

Record endpoint : Type := mkEndpoint {
  path : string;
  full_url : string;
  method : string;
  summary : json;
  description : json;
  operationId : json;
  tags : json;
  status_code : option Z;
  content_length : option Z
}.

(** [endpoint['status_code'] = sc; endpoint['content_length'] = cl]. *)
Definition set_outcome (sc cl : Z) (ep : endpoint) : endpoint :=
  {| path := path ep; full_url := full_url ep; method := method ep;
     summary := summary ep; description := description ep;
     operationId := operationId ep; tags := tags ep;
     status_code := Some sc; content_length := Some cl |}.

(** The fixed verb vocabulary. *)
Definition HTTP_VERBS : list string :=
  ["GET"; "POST"; "PUT"; "DELETE"; "PATCH"; "HEAD"; "OPTIONS"].

(* ================================================================== *)
(** ** Report rows *)

Module Render.

(** Nearest integer to [n / d], ties to the even one ([0 < d]). *)
Definition round_half_even (n d : Z) : Z :=
  let q := n / d in
  let r := n mod d in
  if 2 * r <? d then q
  else if d <? 2 * r then q + 1
  else if Z.even q then q else q + 1.

(** [f"{n / d:.1f}"] for [0 <= n < 2^53] and [d] a power of two: the
    quotient is then an exact binary fraction and the text is its correctly
    rounded decimal with one digit after the point. *)
Definition format_1f (n d : Z) : string :=
  let t := round_half_even (10 * n) d in
  PyStr.str_of_Z (t / 10) ++ "." ++ PyStr.str_of_Z (t mod 10).

(** A text as it is printed: a known string, or the [repr] of a list or
    of a dict, which is not spelled out. *)
Inductive text : Type :=
  | Lit (s : string)
  | ReprOf (j : json).

(** [str(j)], the text an f-string prints for a value. *)
Definition py_str (j : json) : text :=
  match j with
  | JStr s => Lit s
  | JNull => Lit "None"
  | JBool true => Lit "True"
  | JBool false => Lit "False"
  | JInt n => Lit (PyStr.str_of_Z n)
  | _ => ReprOf j
  end.

(** The field [csv.DictWriter] writes for a value: nothing for [None],
    [str(j)] for any other value. *)
Definition csv_field (j : json) : text :=
  match j with
  | JNull => Lit ""
  | _ => py_str j
  end.

Record html_row : Type := mkHtmlRow {
  h_index : Z;
  h_method_class : string;
  h_method : string;
  h_href : string;
  h_path : string;
  h_status_class : string;
  h_status_display : string;
  h_length_display : string;
  h_name : text
}.

(** One iteration of the row loop of [generate_html]. *)
Definition html_row_of (i : Z) (endpoint : endpoint) : html_row :=
  let status_code := default 0 (status_code endpoint) in
  let '(status_display, status_class) :=
    if status_code =? 0 then ("跳过", "status-skip")
    else if status_code =? -1 then ("超时", "status-timeout")
    else if status_code =? -2 then ("连接错误", "status-error")
    else if status_code =? -3 then ("请求错误", "status-error")
    else if status_code =? -4 then ("未知错误", "status-error")
    else if (200 <=? status_code) && (status_code <? 300)
         then (PyStr.str_of_Z status_code, "status-success")
    else if (300 <=? status_code) && (status_code <? 400)
         then (PyStr.str_of_Z status_code, "status-redirect")
    else if (400 <=? status_code) && (status_code <? 500)
         then (PyStr.str_of_Z status_code, "status-client-error")
    else if (500 <=? status_code) && (status_code <? 600)
         then (PyStr.str_of_Z status_code, "status-server-error")
    else (PyStr.str_of_Z status_code, "status-unknown") in
  let content_length := default 0 (content_length endpoint) in
  let length_display :=
    if (status_code =? 0) || (status_code <? 0) then "/"
    else if content_length =? 0 then "0"
    else if content_length <? 1024 then PyStr.str_of_Z content_length
    else if content_length <? 1024 * 1024
         then format_1f content_length 1024 ++ "K"
    else format_1f content_length (1024 * 1024) ++ "M" in
  {| h_index := i;
     h_method_class := PyStr.lower (method endpoint);
     h_method := method endpoint;
     h_href := full_url endpoint;
     h_path := path endpoint;
     h_status_class := status_class;
     h_status_display := status_display;
     h_length_display := length_display;
     h_name := py_str (Json.or (summary endpoint) (operationId endpoint)) |}.

Fixpoint html_rows_from (i : Z) (endpoints : list endpoint) : list html_row :=
  match endpoints with
  | [] => []
  | ep :: rest => html_row_of i ep :: html_rows_from (i + 1) rest
  end.

(** What [generate_html] computes: the texts of the three header values
    read from [info], the endpoint count and the table rows ([enumerate(endpoints,
    1)]).  The fixed markup, the style sheet, the script and the time
    stamp of the page are left out. *)
Record html_page : Type := mkHtmlPage {
  p_title : text;
  p_description : text;
  p_version : text;
  p_total : Z;
  p_rows : list html_row
}.

Definition generate_html (endpoints : list endpoint) (api_info : json)
  : result html_page :=
  rbind (Json.get api_info "title" (JStr "API接口文档")) (fun title =>
  rbind (Json.get api_info "description" (JStr "")) (fun description =>
  rbind (Json.get api_info "version" (JStr "")) (fun version =>
  Returned {| p_title := py_str title; p_description := py_str description;
              p_version := py_str version;
              p_total := Z.of_nat (length endpoints);
              p_rows := html_rows_from 1 endpoints |}))).

Record csv_row : Type := mkCsvRow {
  c_method : string;
  c_path : string;
  c_full_url : string;
  c_status_display : string;
  c_length_display : string;
  c_name : text
}.

(** One iteration of the row loop of [generate_csv]. *)
Definition csv_row_of (endpoint : endpoint) : csv_row :=
  let status_code := default 0 (status_code endpoint) in
  let status_display :=
    if status_code =? 0 then "跳过"
    else if status_code =? -1 then "超时"
    else if status_code =? -2 then "连接错误"
    else if status_code =? -3 then "请求错误"
    else if status_code =? -4 then "未知错误"
    else PyStr.str_of_Z status_code in
  let content_length := default 0 (content_length endpoint) in
  let length_display :=
    if (status_code =? 0) || (status_code <? 0) then "/"
    else if content_length =? 0 then "0"
    else if content_length <? 1024 then PyStr.str_of_Z content_length
    else if content_length <? 1024 * 1024
         then format_1f content_length 1024 ++ "K"
    else format_1f content_length (1024 * 1024) ++ "M" in
  {| c_method := method endpoint;
     c_path := path endpoint;
     c_full_url := full_url endpoint;
     c_status_display := status_display;
     c_length_display := length_display;
     c_name := csv_field (Json.or (summary endpoint) (operationId endpoint)) |}.

Definition csv_rows (endpoints : list endpoint) : list csv_row :=
  map csv_row_of endpoints.

End Render.

(* ================================================================== *)
(** ** The outside world: network and files *)

(** One call of [requests.get], [requests.post], ...: the verb, the URL,
    whether [json={}] is passed, and the timeout in seconds. *)
Record http_request : Type := mkRequest {
  rq_verb : string;
  rq_url : string;
  rq_json_body : bool;
  rq_timeout : Z
}.

(** A response: [response.status_code] and [response.content] ([None] or
    the bytes of the body). *)
Record response : Type := mkResponse {
  r_status_code : Z;
  r_content : option (list Byte.byte)
}.

Inductive net_reply : Type :=
  | Responds (r : response)
  | Fails (e : pyexc).

(** What fetching the specification document gives: [requests.get] or
    [raise_for_status] raises, or the body decodes to a document (directly
    or after the quotes around it are removed), or it does not decode. *)
Inductive doc_reply : Type :=
  | DocRaises (e : pyexc)
  | DocDecoded (d : json)
  | DocUndecodable.

(** What the Python library does outside the fragment that is spelled
    out: [str.upper] and [str.strip] on a text that is not ASCII, [urlparse]
    on a URL that is not ASCII or holds a bracket ([None] when it raises
    [ValueError]), and [re.sub(r'[^\w\-\.]', '_', s)] on a text that is not
    ASCII. *)
Record pylib : Type := mkLib {
  lib_upper : string -> string;
  lib_strip : string -> string;
  lib_urlparse : string -> option (string * string);
  lib_sub_nonword : string -> string
}.

(** The content of a file: a report, an export, or what is left of a file
    that was opened for writing and not written to the end. *)
Inductive file_content : Type :=
  | HtmlFile (page : Render.html_page)
  | CsvFile (rows : list Render.csv_row)
  | Truncated.

(** How [open(name, 'w')] followed by the writes of a content ends: the
    content is written, or [open] raises, or [open] has created or emptied
    the file and a write raises. *)
Inductive write_outcome : Type :=
  | Written
  | OpenFails (e : pyexc)
  | WriteFails (e : pyexc).

(** The environment of a run.  The reply to a probe may depend on the
    probes sent before it. *)
Record env : Type := mkEnv {
  lib : pylib;
  fetch_reply : string -> doc_reply;
  net : list http_request -> http_request -> net_reply;
  write_reply : string -> file_content -> write_outcome
}.

(** The observable state of a run: the probes sent so far, oldest first,
    and the files written so far. *)
Record world : Type := mkWorld {
  sent : list http_request;
  files : list (string * file_content)
}.

Definition Run (A : Type) : Type := world -> result A * world.

Definition ret {A} (a : A) : Run A := fun w => (Returned a, w).

Definition bind {A B} (m : Run A) (k : A -> Run B) : Run B :=
  fun w =>
    match m w with
    | (Returned a, w') => k a w'
    | (Raised e, w') => (Raised e, w')
    | (Exited n, w') => (Exited n, w')
    end.

Definition lift {A} (r : result A) : Run A := fun w => (r, w).

(** [sys.exit(n)]. *)
Definition sys_exit {A} (n : Z) : Run A := fun w => (Exited n, w).

(** [try: body  except Exception as e: handler e]. *)
Definition try_except {A} (body : Run A) (handler : pyexc -> Run A) : Run A :=
  fun w =>
    match body w with
    | (Raised e, w') => handler e w'
    | other => other
    end.

Declare Scope run_scope.
Delimit Scope run_scope with run.
Notation "'do' x <- m ; k" := (bind m (fun x => k))
  (at level 10, x name, m at level 100, k at level 200) : run_scope.
Notation "'do' ' p <- m ; k" := (bind m (fun x => let 'p := x in k))
  (at level 10, p pattern, m at level 100, k at level 200) : run_scope.
Notation "'run' m ; k" := (bind m (fun _ => k))
  (at level 10, m at level 100, k at level 200) : run_scope.
Open Scope run_scope.

(* ================================================================== *)
(** ** Strings under the library *)

Module Py.

(** [s.upper()]. *)
Definition upper (L : pylib) (s : string) : string :=
  if PyStr.is_ascii s then PyStr.upper s else lib_upper L s.

(** [s.strip()]. *)
Definition strip (L : pylib) (s : string) : string :=
  if PyStr.is_ascii s then PyStr.strip s else lib_strip L s.

End Py.

(* ================================================================== *)
(** ** [urllib.parse.urlparse]: scheme and network location *)

Module Url.

(** Characters [urlsplit] strips from the left end of a URL. *)
Definition is_c0_or_space (c : ascii) : bool := (PyStr.code c <=? 32)%N.

(** TAB, LF and CR are removed from a URL wherever they stand. *)
Definition is_unsafe (c : ascii) : bool :=
  ((PyStr.code c =? 9) || (PyStr.code c =? 10) || (PyStr.code c =? 13))%N.

Fixpoint remove_chars (p : ascii -> bool) (s : string) : string :=
  match s with
  | EmptyString => EmptyString
  | String c s' => if p c then remove_chars p s' else String c (remove_chars p s')
  end.

Definition is_scheme_char (c : ascii) : bool :=
  PyStr.is_alpha c || PyStr.is_digit c
  || Ascii.eqb c "+" || Ascii.eqb c "-" || Ascii.eqb c ".".

Fixpoint all_chars (p : ascii -> bool) (s : string) : bool :=
  match s with
  | EmptyString => true
  | String c s' => p c && all_chars p s'
  end.

(** The part of [s] before the first character satisfying [p], and the
    part from that character on. *)
Fixpoint break_at (p : ascii -> bool) (s : string) : string * string :=
  match s with
  | EmptyString => (EmptyString, EmptyString)
  | String c s' =>
      if p c then (EmptyString, s)
      else let '(a, b) := break_at p s' in (String c a, b)
  end.

Definition is_colon (c : ascii) : bool := Ascii.eqb c ":".
Definition is_netloc_end (c : ascii) : bool :=
  Ascii.eqb c "/" || Ascii.eqb c "?" || Ascii.eqb c "#".

(** The scheme, lower-cased, and what follows its colon; no scheme when
    the text before the first colon is empty, does not start with a
    letter or holds a character no scheme may hold. *)
Definition split_scheme (url : string) : string * string :=
  match break_at is_colon url with
  | (String c0 before, String _ after) =>
      if PyStr.is_alpha c0 && all_chars is_scheme_char before
      then (PyStr.lower (String c0 before), after)
      else (EmptyString, url)
  | _ => (EmptyString, url)
  end.

(** The network location: after a leading [//], up to the first of
    [/], [?] and [#]. *)
Definition split_netloc (rest : string) : string :=
  match rest with
  | String "/" (String "/" r) => fst (break_at is_netloc_end r)
  | _ => EmptyString
  end.

(** A URL of ASCII characters without brackets: on such a URL [urlsplit]
    checks no bracketed host and no normal form, and never raises. *)
Definition plain (url : string) : bool :=
  PyStr.is_ascii url
  && negb (PyStr.contains_char "[" url)
  && negb (PyStr.contains_char "]" url).

(** [(parsed.scheme, parsed.netloc)] for a plain URL, after CPython's
    [urlsplit]. *)
Definition split_plain (url : string) : string * string :=
  let url := PyStr.lstrip_by is_c0_or_space url in
  let url := remove_chars is_unsafe url in
  let '(scheme, rest) := split_scheme url in
  (scheme, split_netloc rest).

(** [(parsed.scheme, parsed.netloc)] of [urlparse(url)], or the
    [ValueError] it raises. *)
Definition urlparse (L : pylib) (url : string) : result (string * string) :=
  if plain url then Returned (split_plain url)
  else match lib_urlparse L url with
       | Some parsed => Returned parsed
       | None => Raised ValueError
       end.

(** A plain URL that begins with a scheme and an authority. *)
Definition is_absolute (url : string) : bool :=
  let '(scheme, netloc) := split_plain url in
  negb (PyStr.is_empty scheme) && negb (PyStr.is_empty netloc).

End Url.

(* ================================================================== *)
(** ** Endpoint normalizer *)

Module Normalizer.

(** [api_base_url] is [None] or a string; only a non-empty string is
    true. *)
Definition given (api_base_url : option string) : bool :=
  match api_base_url with
  | Some s => negb (PyStr.is_empty s)
  | None => false
  end.

(** The [if api_base_url: ... elif servers: ... else: ...] block of
    [extract_endpoints]. *)
Definition resolve_base_url (L : pylib) (servers : json) (api_docs_url : string)
    (api_base_url : option string) : result string :=
  if given api_base_url then
    Returned (PyStr.rstrip "/" (default EmptyString api_base_url))
  else if Json.truthy servers then
    rbind (Json.first servers) (fun server =>
    rbind (Json.get server "url" (JStr "")) (fun url =>
    Json.rstrip_slash url))
  else
    rbind (Url.urlparse L api_docs_url) (fun parsed_url =>
    Returned (fst parsed_url ++ "://" ++ snd parsed_url)).

Definition clean_path (path : string) : string :=
  if PyStr.startswith path "/" then path else "/" ++ path.

(** The inner loop, over the items of one path entry. *)
Fixpoint methods_loop (L : pylib) (base_url path : string)
    (methods : list (string * json))
  : result (list endpoint) :=
  match methods with
  | [] => Returned []
  | (method, details) :: rest =>
      if PyStr.mem (Py.upper L method) HTTP_VERBS then
        let full_url := base_url ++ clean_path path in
        rbind (Json.get details "summary" (JStr "")) (fun summary =>
        rbind (Json.get details "description" (JStr "")) (fun description =>
        rbind (Json.get details "operationId" (JStr "")) (fun operationId =>
        rbind (Json.get details "tags" (JArr [])) (fun tags =>
        let endpoint_info :=
          {| path := path; full_url := full_url;
             method := Py.upper L method;
             summary := summary; description := description;
             operationId := operationId; tags := tags;
             status_code := None; content_length := None |} in
        rbind (methods_loop L base_url path rest) (fun endpoints =>
        Returned (endpoint_info :: endpoints))))))
      else methods_loop L base_url path rest
  end.

(** The outer loop, over the items of [paths]. *)
Fixpoint paths_loop (L : pylib) (base_url : string) (paths : list (string * json))
  : result (list endpoint) :=
  match paths with
  | [] => Returned []
  | (path, methods) :: rest =>
      rbind (Json.items methods) (fun ms =>
      rbind (methods_loop L base_url path ms) (fun here =>
      rbind (paths_loop L base_url rest) (fun later =>
      Returned (here ++ later)%list)))
  end.

Definition extract_endpoints (L : pylib) (api_docs : json) (api_docs_url : string)
    (api_base_url : option string) : result (list endpoint) :=
  rbind (Json.get api_docs "paths" (JObj [])) (fun paths =>
  rbind (Json.get api_docs "servers" (JArr [])) (fun servers =>
  rbind (resolve_base_url L servers api_docs_url api_base_url) (fun base_url =>
  rbind (Json.items paths) (fun path_items =>
  paths_loop L base_url path_items)))).

End Normalizer.

(* ================================================================== *)
(** ** Method filter *)

Module MethodFilter.

Definition parse_methods (L : pylib) (method_string : string) : list string :=
  if PyStr.is_empty method_string then []
  else
    let methods :=
      map (fun method => Py.upper L (Py.strip L method))
          (PyStr.split "," method_string) in
    let valid_methods := HTTP_VERBS in
    let invalid_methods :=
      List.filter (fun method => negb (PyStr.mem method valid_methods)) methods in
    match invalid_methods with
    | [] => methods
    | _ => List.filter (fun method => PyStr.mem method valid_methods) methods
    end.

End MethodFilter.

(* ================================================================== *)
(** ** Probe executor and result aggregation *)

Module Probe.
Section WithEnv.

Variable E : env.

(** [requests.<verb>(url, [json={},] timeout=timeout)]. *)
Definition requests_call (verb url : string) (json_body : bool) (timeout : Z)
  : Run response :=
  fun w =>
    let rq := {| rq_verb := verb; rq_url := url;
                 rq_json_body := json_body; rq_timeout := timeout |} in
    let w' := {| sent := sent w ++ [rq]; files := files w |} in
    match net E (sent w) rq with
    | Responds r => (Returned r, w')
    | Fails e => (Raised e, w')
    end.

(** [len(response.content) if response.content else 0]. *)
Definition content_length_of (response : response) : Z :=
  match r_content response with
  | Some (b :: bs) => Z.of_nat (length (b :: bs))
  | _ => 0
  end.

Definition request_endpoint (endpoint : endpoint) (include_delete : bool)
  : Run (Z * Z) :=
  let method := PyStr.upper (method endpoint) in
  let url := full_url endpoint in
  if String.eqb method "DELETE" && negb include_delete then ret (0, 0)
  else
    try_except
      (let timeout := 10 in
       let finish (response : response) : Run (Z * Z) :=
         let content_length := content_length_of response in
         ret (r_status_code response, content_length) in
       if String.eqb method "GET" then
         do response <- requests_call "GET" url false timeout; finish response
       else if String.eqb method "POST" then
         do response <- requests_call "POST" url true timeout; finish response
       else if String.eqb method "PUT" then
         do response <- requests_call "PUT" url true timeout; finish response
       else if String.eqb method "PATCH" then
         do response <- requests_call "PATCH" url true timeout; finish response
       else if String.eqb method "HEAD" then
         do response <- requests_call "HEAD" url false timeout; finish response
       else if String.eqb method "OPTIONS" then
         do response <- requests_call "OPTIONS" url false timeout; finish response
       else ret (0, 0))
      (fun e =>
         if is_Timeout e then ret (-1, 0)
         else if is_ConnectionError e then ret (-2, 0)
         else if is_RequestException e then ret (-3, 0)
         else ret (-4, 0)).

(** [l[:n]]: a negative [n] counts from the end. *)
Definition slice_to {A} (n : Z) (l : list A) : list A :=
  if 0 <=? n then take (Z.to_nat n) l
  else take (Z.to_nat (Z.of_nat (length l) + n)) l.

(** Truth value of [request_limit]: [None] and [0] are false. *)
Definition limit_set (request_limit : option Z) : bool :=
  match request_limit with
  | Some n => negb (n =? 0)
  | None => false
  end.

(** Truth value of [allowed_methods]: [None] and [[]] are false. *)
Definition methods_set (allowed_methods : option (list string)) : bool :=
  match allowed_methods with
  | Some (_ :: _) => true
  | _ => false
  end.

(** The endpoint dicts are shared between [endpoints], the filtered list
    and the list to request: a write through one list is seen through the
    others.  The store is the list [endpoints] itself and the two derived
    lists hold positions in it; the dicts of [endpoints] are distinct
    objects, as [extract_endpoints] builds them. *)
Definition filtered_positions (endpoints : list endpoint)
    (allowed_methods : option (list string)) : list nat :=
  if methods_set allowed_methods then
    List.filter
      (fun i => match endpoints !! i with
                | Some ep => PyStr.mem (PyStr.upper (method ep))
                               (default [] allowed_methods)
                | None => false
                end)
      (seq 0 (length endpoints))
  else seq 0 (length endpoints).

Definition positions_to_request (filtered_endpoints : list nat)
    (request_limit : option Z) : list nat :=
  if limit_set request_limit
  then slice_to (default 0 request_limit) filtered_endpoints
  else filtered_endpoints.

(** The first loop: request each selected endpoint and attach the
    result to its dict. *)
Fixpoint request_loop (include_delete : bool) (to_request : list nat)
    (store : list endpoint) : Run (list endpoint) :=
  match to_request with
  | [] => ret store
  | i :: rest =>
      match store !! i with
      | Some endpoint =>
          do '(status_code, content_length) <- request_endpoint endpoint include_delete;
          request_loop include_delete rest
            (<[i := set_outcome status_code content_length endpoint]> store)
      | None => request_loop include_delete rest store
      end
  end.

(** The second loop: the defaults of the filtered endpoints that were not
    requested. *)
Definition default_loop (not_requested : list nat) (store : list endpoint)
  : list endpoint :=
  fold_left (fun st i => alter (set_outcome 0 0) i st) not_requested store.

Definition request_all_endpoints (endpoints : list endpoint)
    (request_limit : option Z) (include_delete : bool)
    (allowed_methods : option (list string)) : Run (list endpoint) :=
  let filtered_endpoints := filtered_positions endpoints allowed_methods in
  let endpoints_to_request :=
    positions_to_request filtered_endpoints request_limit in
  do store <- request_loop include_delete endpoints_to_request endpoints;
  ret (default_loop (drop (length endpoints_to_request) filtered_endpoints) store).

End WithEnv.
End Probe.

(* ================================================================== *)
(** ** Command line and [main] *)

Record args : Type := mkArgs {
  a_url : option string;
  a_limit : option Z;
  a_all : bool;
  a_method : option string;
  a_request_none : bool
}.

Module Main.
Section WithEnv.

Variable E : env.

Definition str_given (s : option string) : bool :=
  match s with
  | Some x => negb (PyStr.is_empty x)
  | None => false
  end.

(** [fetch_api_docs]: a [RequestException] or a [JSONDecodeError] ends
    the process with status 1, any other exception propagates. *)
Definition fetch_api_docs (url : string) : Run json :=
  match fetch_reply E url with
  | DocDecoded d => ret d
  | DocUndecodable => sys_exit 1
  | DocRaises e =>
      if is_RequestException e then sys_exit 1
      else match e with
           | JSONDecodeError => sys_exit 1
           | _ => lift (Raised e)
           end
  end.

(** What [[^\w\-\.]] leaves in place among the ASCII characters. *)
Definition safe_char (c : ascii) : ascii :=
  if PyStr.is_alpha c || PyStr.is_digit c || Ascii.eqb c "_"
     || Ascii.eqb c "-" || Ascii.eqb c "."
  then c else "_"%char.

(** [re.sub(r'[^\w\-\.]', '_', domain)]. *)
Definition sub_nonword (domain : string) : string :=
  if PyStr.is_ascii domain then PyStr.map_chars safe_char domain
  else lib_sub_nonword (lib E) domain.

(** [extract_domain_from_url]: any exception, the [ValueError] of
    [urlparse] that is, gives the default name. *)
Definition extract_domain_from_url (url : string) : string :=
  match Url.urlparse (lib E) url with
  | Returned parsed =>
      let domain := snd parsed in
      let domain :=
        if PyStr.contains_char ":" domain
        then hd EmptyString (PyStr.split ":" domain)
        else domain in
      let safe_domain := sub_nonword domain in
      let safe_domain :=
        if PyStr.is_empty safe_domain || String.eqb safe_domain "_"
        then "api_docs" else safe_domain in
      safe_domain ++ ".html"
  | _ => "api_docs.html"
  end.

(** [with open(name, 'w') as f:] and the writes into [f]: [open] creates
    or empties the file before anything is written. *)
Definition write_file (name : string) (content : file_content) : Run unit :=
  fun w =>
    match write_reply E name content with
    | Written =>
        (Returned tt, {| sent := sent w; files := files w ++ [(name, content)] |})
    | OpenFails e => (Raised e, w)
    | WriteFails e =>
        (Raised e, {| sent := sent w; files := files w ++ [(name, Truncated)] |})
    end.

(** [generate_csv]: any exception is caught and [None] returned. *)
Definition generate_csv (endpoints : list endpoint) (output_file : string)
  : Run (option string) :=
  let csv_file := PyStr.replace ".html" ".csv" output_file in
  try_except
    (run write_file csv_file (CsvFile (Render.csv_rows endpoints));
     ret (Some csv_file))
    (fun _ => ret None).

(** The [if args.all / elif args.limit / else] block of [main]:
    [(request_limit, include_delete)]. *)
Definition request_policy (a : args) : option Z * bool :=
  if a_all a then (None, true)
  else if Probe.limit_set (a_limit a) then (a_limit a, false)
  else (None, false).

(** The probing phase of [main], lines 977 to 1000. *)
Definition probe_phase (a : args) (endpoints : list endpoint)
    (allowed_methods : option (list string)) : Run (list endpoint) :=
  if a_request_none a then ret (map (set_outcome 0 0) endpoints)
  else
    let '(request_limit, include_delete) := request_policy a in
    Probe.request_all_endpoints E endpoints request_limit include_delete
      allowed_methods.

(** The method-filter step of [main], lines 969 to 975. *)
Definition method_phase (a : args) : Run (option (list string)) :=
  if str_given (a_method a) then
    match MethodFilter.parse_methods (lib E) (default EmptyString (a_method a)) with
    | [] => sys_exit 1
    | allowed_methods => ret (Some allowed_methods)
    end
  else ret None.

Definition main (a : args) : Run unit :=
  if negb (str_given (a_url a)) then ret tt
  else
    let api_url := default EmptyString (a_url a) in
    let output_file := extract_domain_from_url api_url in
    try_except
      (do api_docs <- fetch_api_docs api_url;
       do endpoints <- lift (Normalizer.extract_endpoints (lib E) api_docs api_url None);
       do allowed_methods <- method_phase a;
       do endpoints <- probe_phase a endpoints allowed_methods;
       do api_info <- lift (Json.get api_docs "info" (JObj []));
       do html_content <- lift (Render.generate_html endpoints api_info);
       run write_file output_file (HtmlFile html_content);
       do csv_file <- generate_csv endpoints output_file;
       ret tt)
      (fun _ => sys_exit 1).

(** The exit status of the process after [main]. *)
Definition exit_status (r : result unit) : Z :=
  match r with
  | Returned _ => 0
  | Exited n => n
  | Raised _ => 1
  end.

End WithEnv.
End Main.

Definition empty_world : world := {| sent := []; files := [] |}.

(* ================================================================== *)
(** ** Vocabulary of the properties *)

(** An endpoint whose probe completed with [status_code] and a body of
    [content_length] bytes. *)
Definition answered (status_code content_length : Z) : endpoint :=
  {| path := "/a"; full_url := "https://api.example.com/a"; method := "GET";
     summary := JStr ""; description := JStr ""; operationId := JStr "";
     tags := JArr [];
     status_code := Some status_code; content_length := Some content_length |}.

(** The verbs [request_endpoint] has a branch for. *)
Definition WIRE_VERBS : list string :=
  ["GET"; "POST"; "PUT"; "PATCH"; "HEAD"; "OPTIONS"].

(** The request that probes [ep]: its own method, upper-cased, against its
    [full_url], with an empty JSON object for POST, PUT and PATCH, and the
    ten-second timeout. *)
Definition request_for (ep : endpoint) : http_request :=
  {| rq_verb := PyStr.upper (method ep);
     rq_url := full_url ep;
     rq_json_body := PyStr.mem (PyStr.upper (method ep)) ["POST"; "PUT"; "PATCH"];
     rq_timeout := 10 |}.

(** The outcome the convention assigns to a reply. *)
Definition outcome_of_reply (reply : net_reply) : Z * Z :=
  match reply with
  | Responds r => (r_status_code r, Z.of_nat (length (default [] (r_content r))))
  | Fails e =>
      if is_Timeout e then (-1, 0)
      else if is_ConnectionError e then (-2, 0)
      else if is_RequestException e then (-3, 0)
      else (-4, 0)
  end.

Definition with_sent (w : world) (rqs : list http_request) : world :=
  {| sent := sent w ++ rqs; files := files w |}.

(** A library for runs on ASCII texts and plain URLs, where the library
    is not consulted. *)
Definition unconsulted : pylib :=
  {| lib_upper := fun s => s;
     lib_strip := fun s => s;
     lib_urlparse := fun _ => None;
     lib_sub_nonword := fun s => s |}.

(** A network on which every read times out. *)
Definition timing_out : env :=
  {| lib := unconsulted;
     fetch_reply := fun _ => DocUndecodable;
     net := fun _ _ => Fails ReadTimeout;
     write_reply := fun _ _ => Written |}.

(** The descriptor of an endpoint: the endpoint without its outcome. *)
Definition erase (ep : endpoint) : endpoint :=
  {| path := path ep; full_url := full_url ep; method := method ep;
     summary := summary ep; description := description ep;
     operationId := operationId ep; tags := tags ep;
     status_code := None; content_length := None |}.

(** The request an endpoint gives rise to when it is handed to
    [request_endpoint], if any. *)
Definition probe_of (ep : endpoint) : option http_request :=
  if PyStr.mem (PyStr.upper (method ep)) WIRE_VERBS
  then Some (request_for ep) else None.

(** The requests of the endpoints at the positions [refs], in that order. *)
Definition planned (store : list endpoint) (refs : list nat) : list http_request :=
  omap (fun i => store !! i ≫= probe_of) refs.

(** The endpoint carries a status code other than 0: an outcome that is not
    the skipped one. *)
Definition has_real_outcome (ep : endpoint) : bool :=
  negb (default 0 (status_code ep) =? 0).

Definition real_outcomes (l : list endpoint) : nat :=
  length (List.filter has_real_outcome l).

(** Both outcome keys are present. *)
Definition has_outcome (ep : endpoint) : Prop :=
  is_Some (status_code ep) /\ is_Some (content_length ep).


(** The endpoint [extract_endpoints] builds for an operation object
    without metadata: no outcome is attached yet. *)
Definition fresh (path full_url method : string) : endpoint :=
  {| path := path; full_url := full_url; method := method;
     summary := JStr ""; description := JStr ""; operationId := JStr "";
     tags := JArr [];
     status_code := None; content_length := None |}.

(** A document with the given operations and nothing else. *)
Definition doc_of_paths (paths : list (string * list string)) : json :=
  JObj [("paths",
         JObj (map (fun pm => (fst pm, JObj (map (fun m => (m, JObj [])) (snd pm))))
                   paths))].

Definition example_url : string := "https://api.example.com/v2/api-docs".

(** A server that answers every probe with status 200 and a two-byte
    body, and serves the document [d]. *)
Definition always_200 (d : json) : env :=
  {| lib := unconsulted;
     fetch_reply := fun _ => DocDecoded d;
     net := fun _ _ =>
       Responds {| r_status_code := 200;
                   r_content := Some [Byte.x6f; Byte.x6b] |};
     write_reply := fun _ _ => Written |}.



Definition two_gets : list endpoint :=
  [fresh "/a" "https://api.example.com/a" "GET";
   fresh "/b" "https://api.example.com/b" "GET"].

(** What every endpoint emitted under the base URL [base] satisfies. *)
Definition emitted_under (base : string) (ep : endpoint) : Prop :=
  full_url ep = base ++ Normalizer.clean_path (path ep)
  /\ PyStr.mem (method ep) HTTP_VERBS = true
  /\ status_code ep = None
  /\ content_length ep = None.


(** A document with a [servers] value and the given operations. *)
Definition doc_with_servers (servers : json) (paths : list (string * list string))
  : json :=
  JObj [("servers", servers);
        ("paths",
         JObj (map (fun pm => (fst pm, JObj (map (fun m => (m, JObj [])) (snd pm))))
                   paths))].

(** The ways a run of [main] on the URL [u] ends in [sys.exit(1)]. *)

(** The document is not fetched or not decoded. *)
Definition fetch_fails (E : env) (u : string) : Prop :=
  forall d, fetch_reply E u <> DocDecoded d.

(** The document is decoded but [extract_endpoints] raises on it. *)
Definition normalizing_raises (E : env) (u : string) : Prop :=
  exists d, fetch_reply E u = DocDecoded d
            /\ forall eps,
                 Normalizer.extract_endpoints (lib E) d u None <> Returned eps.

(** A method filter is given and none of its tokens is valid. *)
Definition filter_invalid (E : env) (a : args) : Prop :=
  Main.str_given (a_method a) = true
  /\ MethodFilter.parse_methods (lib E) (default EmptyString (a_method a)) = [].








(** The arguments [-u URL]. *)
Definition url_only : args :=
  {| a_url := Some example_url; a_limit := None; a_all := false;
     a_method := None; a_request_none := false |}.

(** The tokens [parse_methods] validates: the pieces between commas,
    stripped and upper-cased. *)
Definition method_tokens (L : pylib) (method_string : string) : list string :=
  map (fun method => Py.upper L (Py.strip L method))
      (PyStr.split "," method_string).

Definition is_verb (m : string) : bool := PyStr.mem m HTTP_VERBS.

Definition is_object (j : json) : bool :=
  match j with JObj _ => true | _ => false end.

(** The [(path, method)] pairs a [paths] dict declares under verb keys, in
    the order of the dict. *)
Definition verb_pairs (L : pylib) (paths : list (string * json))
  : list (string * string) :=
  flat_map
    (fun pi =>
       match snd pi with
       | JObj ms =>
           map (fun md => (fst pi, Py.upper L (fst md)))
               (List.filter (fun md => is_verb (Py.upper L (fst md))) ms)
       | _ => []
       end)
    paths.

(** The items of the [paths] value of a document. *)
Definition paths_of (fields : list (string * json)) : list (string * json) :=
  match default (JObj []) (Json.assoc "paths" fields) with
  | JObj pl => pl
  | _ => []
  end.

(** Every value under a verb key is a dict. *)
Definition operations_ok (L : pylib) (ms : list (string * json)) : bool :=
  forallb (fun md => if is_verb (Py.upper L (fst md)) then is_object (snd md)
                     else true) ms.

(** The [paths] value is a dict of dicts whose operations are dicts. *)
Definition paths_ok (L : pylib) (paths : json) : bool :=
  match paths with
  | JObj pl =>
      forallb (fun pi => match snd pi with
                         | JObj ms => operations_ok L ms
                         | _ => false
                         end) pl
  | _ => false
  end.

(** [urlparse] does not raise on the URL. *)
Definition url_parses (L : pylib) (url : string) : bool :=
  match Url.urlparse L url with
  | Returned _ => true
  | _ => false
  end.

(** A base URL can be resolved: an override is given; or [servers] is
    true and is a list whose first entry is a dict with no [url] or a
    string [url]; or [servers] is false and the document URL parses. *)
Definition base_ok (L : pylib) (servers : json) (url : string)
    (override : option string) : bool :=
  Normalizer.given override
  || (if Json.truthy servers
      then match servers with
           | JArr (JObj f :: _) =>
               match Json.assoc "url" f with
               | None | Some (JStr _) => true
               | Some _ => false
               end
           | _ => false
           end
      else url_parses L url).

(** The documents [extract_endpoints] accepts. *)
Definition shape_ok (L : pylib) (api_docs : json) (url : string)
    (override : option string) : bool :=
  match api_docs with
  | JObj fields =>
      base_ok L (default (JArr []) (Json.assoc "servers" fields)) url override
      && paths_ok L (default (JObj []) (Json.assoc "paths" fields))
  | _ => false
  end.

(** The ASCII characters a report file name is made of. *)
Definition is_file_name_char (c : ascii) : bool :=
  PyStr.is_alpha c || PyStr.is_digit c || Ascii.eqb c "_"
  || Ascii.eqb c "-" || Ascii.eqb c ".".

(** The identity of a descriptor: its path and its method. *)
Definition pair_of (ep : endpoint) : string * string := (path ep, method ep).


(** A server with a well-formed document that answers every probe, in a
    directory where the HTML report can be written and the CSV export
    cannot be created. *)
Definition csv_unwritable : env :=
  {| lib := unconsulted;
     fetch_reply := fun _ => DocDecoded (doc_of_paths [("/a", ["get"])]);
     net := fun _ _ =>
       Responds {| r_status_code := 200;
                   r_content := Some [Byte.x6f; Byte.x6b] |};
     write_reply := fun name _ =>
       if String.eqb name "api.example.com.html" then Written
       else OpenFails OSError |}.

(** What is left of the CSV export after [generate_csv]. *)
Definition csv_left (E : env) (name : string) (rows : list Render.csv_row)
  : list (string * file_content) :=
  match write_reply E name (CsvFile rows) with
  | Written => [(name, CsvFile rows)]
  | OpenFails _ => []
  | WriteFails _ => [(name, Truncated)]
  end.

(** The decimal text of an integer, as the Standard Library prints it. *)
Definition decimal (n : Z) : string := NilZero.string_of_int (Z.to_int n).

(** [t] is the integer nearest to [n / d], the even one of two equally
    near. *)
Definition nearest (t n d : Z) : Prop :=
  2 * Z.abs (n - d * t) <= d
  /\ (2 * Z.abs (n - d * t) = d -> Z.even t = true).

(** The text of [t] tenths: the whole part, a point and one digit. *)
Definition tenths_text (t : Z) : string :=
  decimal (t / 10) ++ "." ++ decimal (t mod 10).
(* ================================================================== *)
(** * Properties *)

(** ** Report rows *)

Section RenderFacts.

Import Render.

Lemma round_half_even_is_nearest (n d : Z) :
  0 < d -> nearest (Render.round_half_even n d) n d.
Proof.
  intros Hd. unfold nearest, Render.round_half_even.
  pose proof (Z.div_mod n d ltac:(lia)) as Hdm.
  pose proof (Z.mod_pos_bound n d Hd) as Hr.
  destruct (2 * (n mod d) <? d) eqn:H1.
  { apply Z.ltb_lt in H1. split; [lia|]. intros Ht. exfalso. lia. }
  apply Z.ltb_ge in H1.
  destruct (d <? 2 * (n mod d)) eqn:H2.
  { apply Z.ltb_lt in H2. split; [lia|]. intros Ht. exfalso. lia. }
  apply Z.ltb_ge in H2.
  destruct (Z.even (n / d)) eqn:He; (split; [lia|]); intros _; [exact He|].
  replace (n / d + 1) with (Z.succ (n / d)) by lia.
  by rewrite Z.even_succ, <- Z.negb_even, He.
Qed.

Lemma str_of_Z_0 : PyStr.str_of_Z 0 = "0".
Proof. reflexivity. Qed.

(** The length cell of either renderer as a function of the two values
    read from the endpoint. *)
Lemma csv_length_display_eq (ep : endpoint) :
  c_length_display (csv_row_of ep) =
    let sc := default 0 (status_code ep) in
    let n := default 0 (content_length ep) in
    if sc <=? 0 then "/"
    else if n <? 1024 then PyStr.str_of_Z n
    else if n <? 1048576 then format_1f n 1024 ++ "K"
    else format_1f n 1048576 ++ "M".
Proof.
  unfold csv_row_of; cbn [c_length_display].
  set (sc := default 0 (status_code ep)).
  set (n := default 0 (content_length ep)). cbv zeta.
  replace (1024 * 1024) with 1048576 by reflexivity.
  destruct (sc =? 0) eqn:H0.
  - apply Z.eqb_eq in H0. rewrite H0. reflexivity.
  - apply Z.eqb_neq in H0. cbn [orb].
    destruct (sc <? 0) eqn:H1.
    + apply Z.ltb_lt in H1.
      destruct (sc <=? 0) eqn:H2; [reflexivity | apply Z.leb_gt in H2; lia].
    + apply Z.ltb_ge in H1.
      destruct (sc <=? 0) eqn:H2; [apply Z.leb_le in H2; lia |].
      destruct (n =? 0) eqn:H3; [|reflexivity].
      apply Z.eqb_eq in H3. rewrite H3. reflexivity.
Qed.

Lemma html_csv_length_display (i : Z) (ep : endpoint) :
  h_length_display (html_row_of i ep) = c_length_display (csv_row_of ep).
Proof.
  unfold html_row_of, csv_row_of.
  repeat match goal with
         | |- context [if ?b then _ else _] => destruct b
         end; reflexivity.
Qed.

End RenderFacts.

(** C9. In the HTML table and in the CSV export alike, the length cell is
    the marker "/" when the status code is 0 or negative (or absent).
    Otherwise a length below 1024 is shown as the bare integer; a length
    below 1048576 as [t / 10], a point, the digit [t mod 10] and the suffix
    K, where [t] is the integer nearest to ten times the length divided by
    1024, the even one of two equally near; and a larger length likewise
    with 1048576 and the suffix M (for lengths below 2^53, where the
    quotient is an exact binary fraction).  At the boundaries: 1023 gives
    "1023", 1024 gives "1.0K", 1048575 gives "1024.0K", 1048576 gives
    "1.0M". *)
Theorem length_display_boundary_exact :
  forall (i : Z) (ep : endpoint),
    let sc := default 0 (status_code ep) in
    let n := default 0 (content_length ep) in
    let cell := Render.c_length_display (Render.csv_row_of ep) in
    Render.h_length_display (Render.html_row_of i ep) = cell
    /\ (sc <= 0 -> cell = "/")
    /\ (0 < sc -> n < 1024 -> cell = decimal n)
    /\ (0 < sc -> 1024 <= n < 1048576 ->
        exists t, nearest t (10 * n) 1024 /\ cell = tenths_text t ++ "K")
    /\ (0 < sc -> 1048576 <= n < 2 ^ 53 ->
        exists t, nearest t (10 * n) 1048576 /\ cell = tenths_text t ++ "M")
    /\ map (fun k => Render.h_length_display (Render.html_row_of i (answered 200 k)))
           [1023; 1024; 1048575; 1048576]
       = ["1023"; "1.0K"; "1024.0K"; "1.0M"]
    /\ map (fun k => Render.c_length_display (Render.csv_row_of (answered 200 k)))
           [1023; 1024; 1048575; 1048576]
       = ["1023"; "1.0K"; "1024.0K"; "1.0M"].
Proof.
  intros i ep sc n cell.
  split; [apply html_csv_length_display|].
  assert (cell = (if sc <=? 0 then "/"
                  else if n <? 1024 then PyStr.str_of_Z n
                  else if n <? 1048576 then Render.format_1f n 1024 ++ "K"
                  else Render.format_1f n 1048576 ++ "M")) as Hcell
    by apply csv_length_display_eq.
  split; [|split; [|split; [|split; [|split; reflexivity]]]].
  - intros Hsc. rewrite Hcell.
    destruct (sc <=? 0) eqn:H; [reflexivity|apply Z.leb_gt in H; lia].
  - intros Hsc Hn. rewrite Hcell.
    destruct (sc <=? 0) eqn:H; [apply Z.leb_le in H; lia|].
    destruct (n <? 1024) eqn:H1; [reflexivity|apply Z.ltb_ge in H1; lia].
  - intros Hsc Hn. rewrite Hcell.
    destruct (sc <=? 0) eqn:H; [apply Z.leb_le in H; lia|].
    destruct (n <? 1024) eqn:H1; [apply Z.ltb_lt in H1; lia|].
    destruct (n <? 1048576) eqn:H2; [|apply Z.ltb_ge in H2; lia].
    exists (Render.round_half_even (10 * n) 1024).
    split; [apply round_half_even_is_nearest; lia|reflexivity].
  - intros Hsc Hn. rewrite Hcell.
    destruct (sc <=? 0) eqn:H; [apply Z.leb_le in H; lia|].
    destruct (n <? 1024) eqn:H1; [apply Z.ltb_lt in H1; lia|].
    destruct (n <? 1048576) eqn:H2; [apply Z.ltb_lt in H2; lia|].
    exists (Render.round_half_even (10 * n) 1048576).
    split; [apply round_half_even_is_nearest; lia|reflexivity].
Qed.

Lemma length_display_boundary_exact_witness :
  Render.c_length_display (Render.csv_row_of (answered 200 5000)) = "4.9K"
  /\ Render.h_length_display (Render.html_row_of 1 (answered 200 5000)) = "4.9K"
  /\ exists t,
       nearest t (10 * 5000) 1024
       /\ Render.c_length_display (Render.csv_row_of (answered 200 5000))
          = tenths_text t ++ "K".
Proof.
  destruct (length_display_boundary_exact 1 (answered 200 5000))
    as (Hh & _ & _ & HK & _).
  assert (0 < default 0 (status_code (answered 200 5000))) as Hsc
    by (vm_compute; reflexivity).
  assert (1024 <= default 0 (content_length (answered 200 5000)) < 1048576) as Hn
    by (split; vm_compute; [discriminate|reflexivity]).
  destruct (HK Hsc Hn) as (t & Ht & Hc).
  assert (Render.c_length_display (Render.csv_row_of (answered 200 5000)) = "4.9K")
    as Hv by (vm_compute; reflexivity).
  split; [exact Hv|]. split; [rewrite Hh; exact Hv|]. by exists t.
Defined.


(** ** One probe *)

Section ProbeFacts.

Variable E : env.

Lemma with_sent_nil (w : world) : with_sent w [] = w.
Proof. destruct w; unfold with_sent; cbn. by rewrite app_nil_r. Qed.

Lemma with_sent_app (w : world) (a b : list http_request) :
  with_sent (with_sent w a) b = with_sent w (a ++ b).
Proof. unfold with_sent; cbn. by rewrite app_assoc. Qed.

Lemma content_length_of_eq (r : response) :
  Probe.content_length_of r = Z.of_nat (length (default [] (r_content r))).
Proof. unfold Probe.content_length_of. by destruct (r_content r) as [[|b bs]|]. Qed.

Lemma requests_call_finish (verb url : string) (j : bool) (w : world) :
  let rq := mkRequest verb url j 10 in
  try_except
    (do response <- Probe.requests_call E verb url j 10;
     ret (r_status_code response, Probe.content_length_of response))
    (fun e =>
       if is_Timeout e then ret (-1, 0)
       else if is_ConnectionError e then ret (-2, 0)
       else if is_RequestException e then ret (-3, 0)
       else ret (-4, 0)) w
  = (Returned (outcome_of_reply (net E (sent w) rq)), with_sent w [rq]).
Proof.
  intros rq. unfold try_except, bind, Probe.requests_call. fold rq.
  destruct (net E (sent w) rq) as [r|e]; cbn.
  - by rewrite content_length_of_eq.
  - by destruct (is_Timeout e), (is_ConnectionError e), (is_RequestException e).
Qed.

(** What one call of [request_endpoint] does, for every endpoint. *)
Lemma request_endpoint_spec (ep : endpoint) (include_delete : bool) (w : world) :
  Probe.request_endpoint E ep include_delete w =
    if PyStr.mem (PyStr.upper (method ep)) WIRE_VERBS
    then (Returned (outcome_of_reply (net E (sent w) (request_for ep))),
          with_sent w [request_for ep])
    else (Returned (0, 0), w).
Proof.
  unfold Probe.request_endpoint, request_for.
  set (m := PyStr.upper (method ep)).
  destruct (String.eqb m "DELETE") eqn:HD.
  { apply String.eqb_eq in HD. rewrite HD. destruct include_delete; reflexivity. }
  cbn [andb].
  unfold WIRE_VERBS, PyStr.mem. cbn [existsb].
  destruct (String.eqb m "GET") eqn:H1.
  { apply String.eqb_eq in H1. rewrite H1. apply requests_call_finish. }
  destruct (String.eqb m "POST") eqn:H2.
  { apply String.eqb_eq in H2. rewrite H2. apply requests_call_finish. }
  destruct (String.eqb m "PUT") eqn:H3.
  { apply String.eqb_eq in H3. rewrite H3. apply requests_call_finish. }
  destruct (String.eqb m "PATCH") eqn:H4.
  { apply String.eqb_eq in H4. rewrite H4. apply requests_call_finish. }
  destruct (String.eqb m "HEAD") eqn:H5.
  { apply String.eqb_eq in H5. rewrite H5. apply requests_call_finish. }
  destruct (String.eqb m "OPTIONS") eqn:H6.
  { apply String.eqb_eq in H6. rewrite H6. apply requests_call_finish. }
  reflexivity.
Qed.

Lemma request_endpoint_returns (ep : endpoint) (include_delete : bool) (w : world) :
  exists sc cl rqs,
    Probe.request_endpoint E ep include_delete w
    = (Returned (sc, cl), with_sent w rqs).
Proof.
  rewrite request_endpoint_spec.
  destruct (PyStr.mem _ WIRE_VERBS).
  - destruct (outcome_of_reply _) as [sc cl]. by exists sc, cl, [request_for ep].
  - exists 0, 0, []. by rewrite with_sent_nil.
Qed.

End ProbeFacts.

(** C6. A probe never raises: every call of [request_endpoint] returns a
    pair.  When the endpoint's method is one of the verbs a request is sent
    for, a completed exchange gives the literal status code with the byte
    length of the body (0 without a body), and a failure gives length 0
    with -1 for a timeout, otherwise -2 for a connection failure, otherwise
    -3 for any other failure of the request, otherwise -4. *)
Theorem probe_outcome_classified :
  forall (E : env) (ep : endpoint) (include_delete : bool) (w : world),
    (exists sc cl w', Probe.request_endpoint E ep include_delete w
                      = (Returned (sc, cl), w'))
    /\ (PyStr.mem (PyStr.upper (method ep)) WIRE_VERBS = true ->
        exists sc cl,
          Probe.request_endpoint E ep include_delete w
          = (Returned (sc, cl), with_sent w [request_for ep])
          /\ match net E (sent w) (request_for ep) with
             | Responds r =>
                 sc = r_status_code r
                 /\ cl = Z.of_nat (length (default [] (r_content r)))
             | Fails e =>
                 cl = 0
                 /\ (is_Timeout e = true -> sc = -1)
                 /\ (is_Timeout e = false -> is_ConnectionError e = true -> sc = -2)
                 /\ (is_Timeout e = false -> is_ConnectionError e = false ->
                     is_RequestException e = true -> sc = -3)
                 /\ (is_Timeout e = false -> is_ConnectionError e = false ->
                     is_RequestException e = false -> sc = -4)
             end).
Proof.
  intros E ep include_delete w. split.
  - destruct (request_endpoint_returns E ep include_delete w) as (sc & cl & rqs & H).
    by exists sc, cl, (with_sent w rqs).
  - intros Hv. rewrite request_endpoint_spec, Hv.
    destruct (net E (sent w) (request_for ep)) as [r|e]; cbn.
    + eexists _, _. split; [reflexivity|]. by split.
    + destruct (is_Timeout e), (is_ConnectionError e), (is_RequestException e);
        eexists _, _; (split; [reflexivity|]); repeat split; intros; congruence.
Qed.

Lemma probe_outcome_classified_witness :
  PyStr.mem (PyStr.upper (method (answered 0 0))) WIRE_VERBS = true
  /\ Probe.request_endpoint timing_out (answered 0 0) false empty_world
     = (Returned (-1, 0), with_sent empty_world [request_for (answered 0 0)]).
Proof.
  split; [reflexivity|].
  destruct (probe_outcome_classified timing_out (answered 0 0) false empty_world)
    as [_ H].
  destruct (H eq_refl) as (sc & cl & Hrun & Hcl & Hsc & _).
  rewrite Hrun, Hcl, (Hsc eq_refl). reflexivity.
Defined.

(** C1, at the input where the code departs from it: with DELETE permitted
    ([include_delete] true) the probe of a DELETE endpoint sends nothing,
    whatever the network would answer, and returns the pair (0, 0) that also
    marks a skipped endpoint. *)
Theorem delete_probe_sends_nothing :
  forall (E : env) (w : world) (p u : string) (s d o t : json)
         (sc cl : option Z),
    Probe.request_endpoint E (mkEndpoint p u "DELETE" s d o t sc cl) true w
    = (Returned (0, 0), w).
Proof. intros. rewrite request_endpoint_spec. reflexivity. Qed.

(** ** Selection, probing loop and aggregation *)

Section AggregationFacts.

Local Open Scope nat_scope.
Variable E : env.

Lemma erase_set_outcome sc cl ep : erase (set_outcome sc cl ep) = erase ep.
Proof. reflexivity. Qed.

Lemma set_outcome_twice sc cl sc' cl' ep :
  set_outcome sc' cl' (set_outcome sc cl ep) = set_outcome sc' cl' ep.
Proof. reflexivity. Qed.

Lemma probe_of_erase ep : probe_of (erase ep) = probe_of ep.
Proof. reflexivity. Qed.

Lemma probe_of_set_outcome sc cl ep : probe_of (set_outcome sc cl ep) = probe_of ep.
Proof. reflexivity. Qed.

Lemma erase_lookup (s1 s2 : list endpoint) i :
  erase <$> s1 = erase <$> s2 -> erase <$> (s1 !! i) = erase <$> (s2 !! i).
Proof. intros H. by rewrite <- !list_lookup_fmap, H. Qed.

Lemma planned_ext (s1 s2 : list endpoint) refs :
  erase <$> s1 = erase <$> s2 -> planned s1 refs = planned s2 refs.
Proof.
  intros H. unfold planned. apply list_omap_ext. apply Forall2_same_length_lookup_2.
  { reflexivity. }
  intros k i j Hi Hj. assert (i = j) as -> by congruence.
  pose proof (erase_lookup s1 s2 j H) as Hl.
  destruct (s1 !! j) as [a|], (s2 !! j) as [b|]; cbn in *; try congruence.
  rewrite <- (probe_of_erase a), <- (probe_of_erase b). congruence.
Qed.

Lemma erase_insert (store : list endpoint) i ep x :
  store !! i = Some ep -> erase x = erase ep ->
  erase <$> <[i := x]> store = erase <$> store.
Proof.
  intros Hi Hx. rewrite list_fmap_insert, Hx.
  apply list_insert_id. by rewrite list_lookup_fmap, Hi.
Qed.

Lemma real_outcomes_insert (store : list endpoint) i x :
  real_outcomes (<[i := x]> store)
  <= real_outcomes store + (if has_real_outcome x then 1 else 0).
Proof.
  unfold real_outcomes. revert i.
  induction store as [|e l IH]; intros [|i]; simpl; try lia.
  - destruct (has_real_outcome x), (has_real_outcome e); simpl; lia.
  - specialize (IH i).
    destruct (has_real_outcome x), (has_real_outcome e); simpl in *; lia.
Qed.

Lemma real_outcomes_alter_skip (store : list endpoint) i :
  real_outcomes (alter (set_outcome 0 0) i store) <= real_outcomes store.
Proof.
  unfold real_outcomes. revert i.
  induction store as [|e l IH]; intros [|i]; simpl; try lia.
  - destruct (has_real_outcome e); simpl; lia.
  - specialize (IH i). unfold alter in IH.
    destruct (has_real_outcome e); simpl; lia.
Qed.

(** The first loop. *)
Lemma request_loop_spec (incl : bool) (refs : list nat) :
  forall (store : list endpoint) (w : world),
  exists store',
    Probe.request_loop E incl refs store w
    = (Returned store', with_sent w (planned store refs))
    /\ erase <$> store' = erase <$> store
    /\ (forall i, i ∉ refs -> store' !! i = store !! i)
    /\ (forall i ep, i ∈ refs -> store !! i = Some ep ->
          exists sc cl, store' !! i = Some (set_outcome sc cl ep)
            /\ (probe_of ep = None -> sc = 0%Z /\ cl = 0%Z))
    /\ real_outcomes store' <= real_outcomes store + length (planned store refs).
Proof.
  induction refs as [|r rest IH]; intros store w.
  { exists store. cbn. rewrite with_sent_nil. repeat split; try done.
    - intros i ep Hin. by apply elem_of_nil in Hin.
    - lia. }
  cbn [Probe.request_loop]. unfold planned. cbn [omap list_omap].
  fold (planned store rest).
  destruct (store !! r) as [ep|] eqn:Hr; cbn [mbind option_bind].
  2:{ destruct (IH store w) as (store' & Hrun & Her & Hout & Hin & Hcnt).
      exists store'. repeat split; try done.
      - intros i Hi. apply Hout. intros Hc. apply Hi. by right.
      - intros i ep Hi Hep. apply Hin; [|done].
        apply elem_of_cons in Hi as [->|Hi]; [congruence|done]. }
  unfold bind at 1. rewrite request_endpoint_spec. unfold probe_of.
  destruct (PyStr.mem (PyStr.upper (method ep)) WIRE_VERBS) eqn:Hv.
  - destruct (outcome_of_reply _) as [sc cl] eqn:Ho.
    set (store1 := <[r := set_outcome sc cl ep]> store).
    assert (erase <$> store1 = erase <$> store) as He1
      by (by apply erase_insert with ep).
    destruct (IH store1 (with_sent w [request_for ep]))
      as (store' & Hrun & Her & Hout & Hin & Hcnt).
    exists store'. rewrite Hrun, with_sent_app, (planned_ext store1 store rest He1).
    split; [done|]. split; [congruence|]. split; [|split].
    + intros i Hi. rewrite Hout by (intros Hc; apply Hi; by right).
      apply list_lookup_insert_ne. intros ->. apply Hi. by left.
    + intros i ep' Hi Hep'.
      assert (r < length store) as Hlen by (by eapply lookup_lt_Some).
      destruct (decide (i ∈ rest)) as [Hir|Hir].
      * destruct (decide (r = i)) as [->|Hne].
        -- assert (ep' = ep) as -> by congruence.
           destruct (Hin i (set_outcome sc cl ep) Hir) as (sc' & cl' & Hl & _).
           { by apply list_lookup_insert_eq. }
           exists sc', cl'. split; [done|]. unfold probe_of. rewrite Hv. done.
        -- destruct (Hin i ep' Hir) as (sc' & cl' & Hl & Hz).
           { unfold store1. by rewrite list_lookup_insert_ne. }
           by exists sc', cl'.
      * apply elem_of_cons in Hi as [->|Hi]; [|done].
        assert (ep' = ep) as -> by congruence.
        exists sc, cl. rewrite (Hout r Hir). split.
        -- by apply list_lookup_insert_eq.
        -- unfold probe_of. rewrite Hv. done.
    + rewrite (planned_ext store1 store rest He1) in Hcnt.
      pose proof (real_outcomes_insert store r (set_outcome sc cl ep)) as Hins.
      fold store1 in Hins. cbn [length].
      destruct (has_real_outcome (set_outcome sc cl ep)); lia.
  - set (store1 := <[r := set_outcome 0 0 ep]> store).
    assert (erase <$> store1 = erase <$> store) as He1
      by (by apply erase_insert with ep).
    destruct (IH store1 w) as (store' & Hrun & Her & Hout & Hin & Hcnt).
    exists store'. rewrite Hrun, (planned_ext store1 store rest He1).
    split; [done|]. split; [congruence|]. split; [|split].
    + intros i Hi. rewrite Hout by (intros Hc; apply Hi; by right).
      apply list_lookup_insert_ne. intros ->. apply Hi. by left.
    + intros i ep' Hi Hep'.
      assert (r < length store) as Hlen by (by eapply lookup_lt_Some).
      destruct (decide (i ∈ rest)) as [Hir|Hir].
      * destruct (decide (r = i)) as [->|Hne].
        -- assert (ep' = ep) as -> by congruence.
           destruct (Hin i (set_outcome 0 0 ep) Hir) as (sc' & cl' & Hl & Hz).
           { by apply list_lookup_insert_eq. }
           exists sc', cl'. split; [done|]. intros _. apply Hz.
           rewrite probe_of_set_outcome. unfold probe_of. by rewrite Hv.
        -- destruct (Hin i ep' Hir) as (sc' & cl' & Hl & Hz).
           { unfold store1. by rewrite list_lookup_insert_ne. }
           by exists sc', cl'.
      * apply elem_of_cons in Hi as [->|Hi]; [|done].
        assert (ep' = ep) as -> by congruence.
        exists 0%Z, 0%Z. rewrite (Hout r Hir). split; [|done].
        by apply list_lookup_insert_eq.
    + rewrite (planned_ext store1 store rest He1) in Hcnt.
      pose proof (real_outcomes_insert store r (set_outcome 0 0 ep)) as Hins.
      fold store1 in Hins. cbn in Hins. lia.
Qed.

(** The second loop. *)
Lemma default_loop_spec (refs : list nat) :
  forall store : list endpoint,
    erase <$> Probe.default_loop refs store = erase <$> store
    /\ (forall i, i ∉ refs -> Probe.default_loop refs store !! i = store !! i)
    /\ (forall i ep, i ∈ refs -> store !! i = Some ep ->
          Probe.default_loop refs store !! i = Some (set_outcome 0 0 ep))
    /\ real_outcomes (Probe.default_loop refs store) <= real_outcomes store.
Proof.
  unfold Probe.default_loop.
  induction refs as [|r rest IH]; intros store; cbn [fold_left].
  { repeat split; try done. intros i ep Hi. by apply elem_of_nil in Hi. }
  set (store1 := alter (set_outcome 0 0) r store).
  destruct (IH store1) as (Her & Hout & Hin & Hcnt). split; [|split; [|split]].
  - rewrite Her. unfold store1.
    apply list_eq. intros i. rewrite !list_lookup_fmap.
    destruct (decide (r = i)) as [->|Hne].
    + rewrite list_lookup_alter_eq. by destruct (store !! i).
    + by rewrite list_lookup_alter_ne.
  - intros i Hi. rewrite Hout by (intros Hc; apply Hi; by right).
    apply list_lookup_alter_ne. intros ->. apply Hi. by left.
  - intros i ep Hi Hep.
    destruct (decide (i ∈ rest)) as [Hir|Hir].
    + destruct (decide (r = i)) as [->|Hne].
      * rewrite (Hin i (set_outcome 0 0 ep) Hir); [done|].
        unfold store1. by rewrite list_lookup_alter_eq, Hep.
      * apply Hin; [done|]. unfold store1. by rewrite list_lookup_alter_ne.
    + apply elem_of_cons in Hi as [->|Hi]; [|done].
      rewrite (Hout r Hir). unfold store1. by rewrite list_lookup_alter_eq, Hep.
  - pose proof (real_outcomes_alter_skip store r). fold store1 in H. lia.
Qed.

End AggregationFacts.

Section SelectionFacts.

Local Open Scope nat_scope.
Local Open Scope list_scope.
Variable E : env.

Lemma take_drop_taken {A} (k : nat) (l : list A) :
  take k l ++ drop (length (take k l)) l = l.
Proof.
  rewrite length_take. destruct (decide (k <= length l)) as [Hk|Hk].
  - rewrite Nat.min_l by done. apply take_drop.
  - rewrite Nat.min_r by lia. rewrite take_ge, drop_all by lia. apply app_nil_r.
Qed.

Lemma positions_to_request_take (filtered : list nat) (limit : option Z) :
  exists k, Probe.positions_to_request filtered limit = take k filtered.
Proof.
  unfold Probe.positions_to_request, Probe.slice_to.
  destruct (Probe.limit_set limit).
  - destruct (0 <=? default 0%Z limit)%Z; eauto.
  - exists (length filtered). by rewrite take_ge.
Qed.



Lemma set_outcome_erase sc cl a b :
  erase a = erase b -> set_outcome sc cl a = set_outcome sc cl b.
Proof.
  destruct a, b. unfold erase, set_outcome. cbn. intros H. by inversion H.
Qed.

Lemma lookup_erased (s1 s2 : list endpoint) i ep :
  erase <$> s1 = erase <$> s2 -> s2 !! i = Some ep ->
  exists x, s1 !! i = Some x /\ erase x = erase ep.
Proof.
  intros H Hi. pose proof (erase_lookup s1 s2 i H) as Hl. rewrite Hi in Hl.
  destruct (s1 !! i) as [x|]; cbn in Hl; [|done].
  exists x. split; [done|]. congruence.
Qed.

(** What [request_all_endpoints] does to the world and to every position
    of the endpoint list. *)
Lemma request_all_endpoints_spec (endpoints : list endpoint)
    (limit : option Z) (incl : bool) (allowed : option (list string))
    (w : world) :
  let filtered := Probe.filtered_positions endpoints allowed in
  let to_request := Probe.positions_to_request filtered limit in
  let rest := drop (length to_request) filtered in
  exists eps',
    Probe.request_all_endpoints E endpoints limit incl allowed w
    = (Returned eps', with_sent w (planned endpoints to_request))
    /\ erase <$> eps' = erase <$> endpoints
    /\ (forall i, i ∉ filtered -> eps' !! i = endpoints !! i)
    /\ (forall i ep, i ∈ to_request -> endpoints !! i = Some ep ->
          exists sc cl, eps' !! i = Some (set_outcome sc cl ep)
            /\ (probe_of ep = None -> sc = 0%Z /\ cl = 0%Z))
    /\ (forall i ep, i ∈ rest -> endpoints !! i = Some ep ->
          eps' !! i = Some (set_outcome 0 0 ep))
    /\ real_outcomes eps'
       <= real_outcomes endpoints + length (planned endpoints to_request).
Proof.
  intros filtered to_request rest.
  unfold Probe.request_all_endpoints. fold filtered. fold to_request. fold rest.
  destruct (request_loop_spec E incl to_request endpoints w)
    as (store & Hrun & Her & Hout & Hin & Hcnt).
  destruct (default_loop_spec rest store) as (Her2 & Hout2 & Hin2 & Hcnt2).
  destruct (positions_to_request_take filtered limit) as [k Hk].
  fold to_request in Hk.
  assert (to_request ++ rest = filtered) as Hsplit.
  { unfold rest. rewrite Hk. apply take_drop_taken. }
  exists (Probe.default_loop rest store).
  unfold bind. rewrite Hrun. cbn [ret].
  split; [done|]. split; [congruence|]. split; [|split; [|split]].
  - intros i Hi.
    rewrite Hout2, Hout; [done| |]; intros Hc; apply Hi; rewrite <- Hsplit;
      apply elem_of_app; auto.
  - intros i ep Hi Hep.
    destruct (Hin i ep Hi Hep) as (sc & cl & Hl & Hz).
    destruct (decide (i ∈ rest)) as [Hir|Hir].
    + exists 0%Z, 0%Z. by rewrite (Hin2 i _ Hir Hl).
    + exists sc, cl. by rewrite (Hout2 i Hir).
  - intros i ep Hi Hep.
    destruct (lookup_erased store endpoints i ep Her Hep) as (x & Hx & Hex).
    rewrite (Hin2 i x Hi Hx). f_equal. by apply set_outcome_erase.
  - lia.
Qed.

Lemma filtered_positions_elem (endpoints : list endpoint)
    (allowed : option (list string)) (i : nat) :
  i ∈ Probe.filtered_positions endpoints allowed ->
  exists ep, endpoints !! i = Some ep.
Proof.
  unfold Probe.filtered_positions. intros Hi.
  assert (i ∈ seq 0 (length endpoints)) as Hs.
  { destruct (Probe.methods_set allowed); [|done].
    apply list_elem_of_In in Hi. apply filter_In in Hi as [Hi _].
    by apply list_elem_of_In. }
  apply elem_of_seq in Hs. apply lookup_lt_is_Some_2. lia.
Qed.

Lemma erase_fmap_length (a b : list endpoint) :
  erase <$> a = erase <$> b -> length a = length b.
Proof. intros H. by rewrite <- (length_fmap erase a), H, length_fmap. Qed.

End SelectionFacts.

(** ** Aggregated sequence *)

Section AggregatedFacts.

Local Open Scope nat_scope.
Local Open Scope list_scope.
Variable E : env.



(** An endpoint whose method has no branch in [request_endpoint], DELETE
    among them, is never requested; when it passes the allow-list it ends
    with the outcome (0, 0), whatever [include_delete] is. *)
Lemma unrequestable_in_allow_list_is_skipped (endpoints : list endpoint)
    (limit : option Z) (incl : bool) (allowed : option (list string))
    (w : world) (i : nat) (ep : endpoint) :
  endpoints !! i = Some ep ->
  probe_of ep = None ->
  i ∈ Probe.filtered_positions endpoints allowed ->
  exists eps' w',
    Probe.request_all_endpoints E endpoints limit incl allowed w
    = (Returned eps', w')
    /\ eps' !! i = Some (set_outcome 0 0 ep).
Proof.
  intros Hep Hp Hi.
  destruct (request_all_endpoints_spec E endpoints limit incl allowed w)
    as (eps' & Hrun & _ & _ & Hreq & Hrest & _).
  exists eps', (with_sent w (planned endpoints
    (Probe.positions_to_request (Probe.filtered_positions endpoints allowed) limit))).
  split; [done|].
  destruct (positions_to_request_take
              (Probe.filtered_positions endpoints allowed) limit) as [k Hk].
  rewrite <- (take_drop_taken k (Probe.filtered_positions endpoints allowed)) in Hi.
  rewrite <- Hk in Hi. apply elem_of_app in Hi as [Hi|Hi].
  - destruct (Hreq i ep Hi Hep) as (sc & cl & Hl & Hz).
    destruct (Hz Hp) as [-> ->]. done.
  - by apply Hrest.
Qed.

(** No DELETE request is ever sent: every request sent by
    [request_all_endpoints] carries one of the six other verbs. *)
Lemma planned_verbs (store : list endpoint) (refs : list nat) (rq : http_request) :
  rq ∈ planned store refs -> PyStr.mem (rq_verb rq) WIRE_VERBS = true.
Proof.
  unfold planned. intros H. apply list_elem_of_omap in H as (i & _ & Hi).
  destruct (store !! i) as [ep|]; [|done]. simpl in Hi. unfold probe_of in Hi.
  destruct (PyStr.mem (PyStr.upper (method ep)) WIRE_VERBS) eqn:Hv; [|done].
  inversion Hi. done.
Qed.

End AggregatedFacts.

(** C2, at the input where the code departs from it: of the two endpoints
    of a document with GET /a and POST /a, probed under the allow-list GET,
    the POST endpoint comes back exactly as it went in, with neither
    [status_code] nor [content_length] attached, whatever the limit, the
    DELETE flag, the network and the world are. *)
Theorem allow_list_leaves_endpoint_without_outcome :
  forall (E : env) (w : world) (limit : option Z) (incl : bool),
    let ep_get := fresh "/a" "https://api.example.com/a" "GET" in
    let ep_post := fresh "/a" "https://api.example.com/a" "POST" in
    Normalizer.extract_endpoints (lib E)
      (doc_of_paths [("/a", ["get"; "post"])]) example_url None
    = Returned [ep_get; ep_post]
    /\ exists eps' w',
         Probe.request_all_endpoints E [ep_get; ep_post] limit incl
           (Some ["GET"]) w
         = (Returned eps', w')
         /\ eps' !! 1%nat = Some ep_post
         /\ status_code ep_post = None
         /\ content_length ep_post = None
         /\ ~ has_outcome ep_post.
Proof.
  intros E w limit incl ep_get ep_post. split; [reflexivity|].
  destruct (request_all_endpoints_spec E [ep_get; ep_post] limit incl
              (Some ["GET"]) w) as (eps' & Hrun & _ & Hout & _).
  eexists _, _. split; [exact Hrun|].
  split; [|split; [reflexivity|split; [reflexivity|]]].
  - rewrite Hout; [reflexivity|].
    change (Probe.filtered_positions [ep_get; ep_post] (Some ["GET"]))
      with [0%nat].
    intros Hc. apply list_elem_of_In in Hc. destruct Hc as [Hc|[]]. discriminate.
  - intros [[x Hx] _]. discriminate.
Qed.

(** C3, at the input where the code departs from it: with the DELETE flag
    off and the allow-list GET, the DELETE endpoint of a document with
    DELETE /a alone is never requested, but it does not receive the outcome
    (0, 0) either: it comes back with no outcome attached. *)
Theorem delete_outside_allow_list_gets_no_outcome :
  forall (E : env) (w : world) (limit : option Z),
    let ep_delete := fresh "/a" "https://api.example.com/a" "DELETE" in
    Normalizer.extract_endpoints (lib E)
      (doc_of_paths [("/a", ["delete"])]) example_url None
    = Returned [ep_delete]
    /\ Probe.request_all_endpoints E [ep_delete] limit false (Some ["GET"]) w
       = (Returned [ep_delete], w)
    /\ status_code ep_delete <> Some 0
    /\ content_length ep_delete <> Some 0.
Proof.
  intros E w limit ep_delete. split; [reflexivity|].
  split; [|split; discriminate].
  unfold Probe.request_all_endpoints.
  change (Probe.filtered_positions [ep_delete] (Some ["GET"])) with (@nil nat).
  assert (Probe.positions_to_request [] limit = []) as ->.
  { destruct (positions_to_request_take [] limit) as [k ->]. by destruct k. }
  destruct w; reflexivity.
Qed.

(** ** Request limit *)

Section LimitFacts.

Local Open Scope nat_scope.
Local Open Scope list_scope.


Lemma request_policy_all (a : args) :
  a_all a = true -> Main.request_policy a = (None, true).
Proof. intros Hall. unfold Main.request_policy. by rewrite Hall. Qed.

End LimitFacts.




(** ** Strings *)

Section StringFacts.

Lemma append_nil_r (s : string) : s ++ "" = s.
Proof. induction s as [|c s IH]; simpl; [reflexivity|by rewrite IH]. Qed.

Lemma rstrip_by_no_trailing (p : ascii -> bool) (c : ascii) (s : string) :
  p c = true -> PyStr.ends_with_char c (PyStr.rstrip_by p s) = false.
Proof.
  intros Hp. induction s as [|a s IH]; simpl; [reflexivity|].
  destruct (PyStr.rstrip_by p s) as [|b r] eqn:Hr; simpl.
  - destruct (p a) eqn:Ha; simpl; [reflexivity|].
    destruct (Ascii.eqb_spec a c) as [->|]; [congruence|reflexivity].
  - exact IH.
Qed.

(** [rstrip] leaves no trailing slash. *)
Lemma rstrip_no_trailing (c : ascii) (s : string) :
  PyStr.ends_with_char c (PyStr.rstrip c s) = false.
Proof. apply rstrip_by_no_trailing. apply Ascii.eqb_refl. Qed.

(** [rstrip] only removes characters [c] from the right end. *)
Lemma rstrip_suffix (c : ascii) (s : string) :
  exists tail, s = PyStr.rstrip c s ++ tail
               /\ Url.all_chars (fun a => Ascii.eqb a c) tail = true.
Proof.
  unfold PyStr.rstrip. induction s as [|a s (tail & Hs & Ht)]; simpl.
  - exists "". split; reflexivity.
  - destruct (PyStr.rstrip_by _ s) as [|b r] eqn:Hr; simpl in *.
    + subst tail. destruct (Ascii.eqb a c) eqn:Ha; simpl.
      * exists (String a s). split; [reflexivity|]. simpl. by rewrite Ha.
      * exists s. split; [reflexivity|exact Ht].
    + exists tail. split; [|exact Ht]. by rewrite <- Hs.
Qed.

Lemma clean_path_cases (pth : string) :
  (PyStr.startswith pth "/" = true /\ Normalizer.clean_path pth = pth)
  \/ (PyStr.startswith pth "/" = false
      /\ Normalizer.clean_path pth = String "/" pth).
Proof.
  unfold Normalizer.clean_path. destruct (PyStr.startswith pth "/"); auto.
Qed.

End StringFacts.

(** ** URLs *)

Section UrlFacts.

Ltac all_ascii c := destruct c as [[] [] [] [] [] [] [] []].

Lemma scheme_char_not_colon (c : ascii) :
  Url.is_scheme_char c = true -> Url.is_colon c = false.
Proof. all_ascii c; vm_compute; intros H; congruence. Qed.

Lemma alpha_scheme_char (c : ascii) :
  PyStr.is_alpha c = true -> Url.is_scheme_char c = true.
Proof. unfold Url.is_scheme_char. by intros ->. Qed.

Lemma all_chars_impl (p q : ascii -> bool) (s : string) :
  (forall c, p c = true -> q c = true) ->
  Url.all_chars p s = true -> Url.all_chars q s = true.
Proof.
  intros Hpq. induction s as [|c s IH]; simpl; [done|].
  intros H. apply andb_true_iff in H as [Hc Hs].
  by rewrite (Hpq c Hc), (IH Hs).
Qed.

Lemma remove_chars_id (p : ascii -> bool) (s : string) :
  Url.all_chars (fun c => negb (p c)) s = true -> Url.remove_chars p s = s.
Proof.
  induction s as [|c s IH]; simpl; [done|].
  intros H. apply andb_true_iff in H as [Hc Hs].
  destruct (p c); [done|]. by rewrite (IH Hs).
Qed.

Lemma break_at_none (p : ascii -> bool) (s : string) :
  Url.all_chars (fun c => negb (p c)) s = true -> Url.break_at p s = (s, "").
Proof.
  induction s as [|c s IH]; simpl; [done|].
  intros H. apply andb_true_iff in H as [Hc Hs].
  destruct (p c); [done|]. by rewrite (IH Hs).
Qed.

Lemma break_at_first (p : ascii -> bool) (a y : string) (c : ascii) :
  Url.all_chars (fun c => negb (p c)) a = true -> p c = true ->
  Url.break_at p (a ++ String c y) = (a, String c y).
Proof.
  intros Ha Hc. induction a as [|d a IH]; simpl.
  - by rewrite Hc.
  - simpl in Ha. apply andb_true_iff in Ha as [Hd Ha].
    destruct (p d); [done|]. by rewrite (IH Ha).
Qed.

Lemma alpha_not_stripped (c : ascii) :
  PyStr.is_alpha c = true -> Url.is_c0_or_space c = false.
Proof. all_ascii c; vm_compute; intros H; congruence. Qed.

(** What [urlsplit] finds in a plain URL that is written as a scheme, a
    colon, two slashes, an authority and a rest that is empty or starts
    with a slash, a question mark or a hash sign. *)
Lemma split_plain_shape (c0 : ascii) (before authority rest : string) :
  let url := String c0 before ++ "://" ++ authority ++ rest in
  PyStr.is_alpha c0 = true ->
  Url.all_chars Url.is_scheme_char before = true ->
  Url.all_chars (fun c => negb (Url.is_unsafe c)) url = true ->
  Url.all_chars (fun c => negb (Url.is_netloc_end c)) authority = true ->
  (rest = "" \/ exists d y, rest = String d y /\ Url.is_netloc_end d = true) ->
  Url.split_plain url = (PyStr.lower (String c0 before), authority).
Proof.
  intros url Hc0 Hbefore Hsafe Hauth Hrest. unfold Url.split_plain.
  assert (PyStr.lstrip_by Url.is_c0_or_space url = url) as ->.
  { unfold url. simpl. by rewrite (alpha_not_stripped c0 Hc0). }
  rewrite (remove_chars_id Url.is_unsafe url Hsafe).
  unfold Url.split_scheme, url.
  change (String c0 before ++ "://" ++ authority ++ rest)
    with (String c0 before ++ String ":" (String "/" (String "/" (authority ++ rest)))).
  rewrite break_at_first; [|..|reflexivity].
  2:{ change (Url.all_chars (fun c => negb (Url.is_colon c)) (String c0 before))
        with (negb (Url.is_colon c0)
              && Url.all_chars (fun c => negb (Url.is_colon c)) before).
      rewrite (scheme_char_not_colon c0 (alpha_scheme_char c0 Hc0)). simpl.
      apply (all_chars_impl Url.is_scheme_char); [|exact Hbefore].
      intros c Hc. by rewrite scheme_char_not_colon. }
  rewrite Hc0, Hbefore. cbn [andb Url.split_netloc]. f_equal.
  destruct Hrest as [->|(d & y & -> & Hd)].
  - rewrite append_nil_r. by rewrite (break_at_none _ _ Hauth).
  - by rewrite (break_at_first _ _ _ _ Hauth Hd).
Qed.

End UrlFacts.

(** ** Normalizer *)

Section NormalizerFacts.

Variable L : pylib.

Lemma methods_loop_emits (base pth : string) (ms : list (string * json)) :
  forall eps, Normalizer.methods_loop L base pth ms = Returned eps ->
              Forall (emitted_under base) eps.
Proof.
  induction ms as [|[m details] rest IH]; intros eps;
    cbn [Normalizer.methods_loop].
  { intros H. inversion H. constructor. }
  destruct (PyStr.mem (Py.upper L m) HTTP_VERBS) eqn:Hm; [|apply IH].
  destruct details; cbn [Json.get rbind]; try discriminate.
  destruct (Normalizer.methods_loop L base pth rest) as [eps0| |];
    cbn [rbind]; try discriminate.
  intros H. inversion H. subst eps. constructor; [|by apply IH].
  repeat split. exact Hm.
Qed.

Lemma paths_loop_emits (base : string) (paths : list (string * json)) :
  forall eps, Normalizer.paths_loop L base paths = Returned eps ->
              Forall (emitted_under base) eps.
Proof.
  induction paths as [|[pth methods] rest IH]; intros eps;
    cbn [Normalizer.paths_loop].
  { intros H. inversion H. constructor. }
  destruct methods; cbn [Json.items rbind]; try discriminate.
  destruct (Normalizer.methods_loop L base pth fields) as [here| |] eqn:Hh;
    cbn [rbind]; try discriminate.
  destruct (Normalizer.paths_loop L base rest) as [later| |];
    cbn [rbind]; try discriminate.
  intros H. inversion H. apply Forall_app. split.
  - by eapply methods_loop_emits.
  - by apply IH.
Qed.

(** The descriptors [extract_endpoints] returns are those of its loops
    under the resolved base URL. *)
Lemma extract_endpoints_emits (api_docs : json) (url : string)
    (override : option string) (eps : list endpoint) :
  Normalizer.extract_endpoints L api_docs url override = Returned eps ->
  exists fields base,
    api_docs = JObj fields
    /\ Normalizer.resolve_base_url L
         (default (JArr []) (Json.assoc "servers" fields)) url override
       = Returned base
    /\ Forall (emitted_under base) eps.
Proof.
  unfold Normalizer.extract_endpoints.
  destruct api_docs; cbn [Json.get rbind]; try discriminate.
  destruct (Normalizer.resolve_base_url L _ url override) as [base| |] eqn:Hb;
    cbn [rbind]; try discriminate.
  destruct (default (JObj []) (Json.assoc "paths" fields));
    cbn [Json.items rbind]; try discriminate.
  intros H. exists fields, base. repeat split; [exact Hb|].
  by eapply paths_loop_emits.
Qed.

End NormalizerFacts.

(** C8. The base URL is resolved in a fixed order.  A non-empty override
    wins and is used with its trailing slashes removed.  Without one, a
    non-empty [servers] list decides: the base is the [url] of its first
    entry, the empty string when it has none, with the trailing slashes
    removed.  Without either, the base is the scheme, "://" and the network
    location that [urlparse] finds in the document URL, and [urlparse]'s
    exception when it raises one.  In a URL of ASCII characters without
    square brackets, TAB, LF and CR that is written as scheme://authority
    followed by nothing or by a path, a query or a fragment, [urlparse]
    finds the scheme, in lower case, and that authority.  The base
    [extract_endpoints] uses is the one so resolved from the [servers]
    value of the document, and every endpoint's [full_url] is that base
    followed by the path, which gets a leading slash when it has none.
    For the document URL https://api.example.com/v2/api-docs, without
    servers and override, the path users resolves to
    https://api.example.com/users. *)
Theorem base_url_resolution_order :
  forall (L : pylib) (url : string) (override : option string) (servers : json),
    (forall o, override = Some o -> o <> "" ->
       Normalizer.resolve_base_url L servers url override
       = Returned (PyStr.rstrip "/" o)
       /\ PyStr.ends_with_char "/" (PyStr.rstrip "/" o) = false
       /\ exists tail, o = PyStr.rstrip "/" o ++ tail
                       /\ Url.all_chars (fun a => Ascii.eqb a "/") tail = true)
    /\ (forall fields rest u,
          Normalizer.given override = false ->
          servers = JArr (JObj fields :: rest) ->
          default (JStr "") (Json.assoc "url" fields) = JStr u ->
          Normalizer.resolve_base_url L servers url override
          = Returned (PyStr.rstrip "/" u)
          /\ PyStr.ends_with_char "/" (PyStr.rstrip "/" u) = false
          /\ exists tail, u = PyStr.rstrip "/" u ++ tail
                          /\ Url.all_chars (fun a => Ascii.eqb a "/") tail = true)
    /\ (forall scheme netloc,
          Normalizer.given override = false ->
          Json.truthy servers = false ->
          Url.urlparse L url = Returned (scheme, netloc) ->
          Normalizer.resolve_base_url L servers url override
          = Returned (scheme ++ "://" ++ netloc))
    /\ (forall e,
          Normalizer.given override = false ->
          Json.truthy servers = false ->
          Url.urlparse L url = Raised e ->
          Normalizer.resolve_base_url L servers url override = Raised e)
    /\ (forall c0 before authority rest,
          url = String c0 before ++ "://" ++ authority ++ rest ->
          Url.plain url = true ->
          PyStr.is_alpha c0 = true ->
          Url.all_chars Url.is_scheme_char before = true ->
          Url.all_chars (fun c => negb (Url.is_unsafe c)) url = true ->
          Url.all_chars (fun c => negb (Url.is_netloc_end c)) authority = true ->
          (rest = "" \/ exists d y, rest = String d y /\ Url.is_netloc_end d = true) ->
          Url.urlparse L url
          = Returned (PyStr.lower (String c0 before), authority))
    /\ (forall api_docs eps,
          Normalizer.extract_endpoints L api_docs url override = Returned eps ->
          exists fields base,
            api_docs = JObj fields
            /\ Normalizer.resolve_base_url L
                 (default (JArr []) (Json.assoc "servers" fields)) url override
               = Returned base
            /\ Forall (fun ep =>
                         full_url ep = base ++ Normalizer.clean_path (path ep)) eps)
    /\ (forall pth,
          (PyStr.startswith pth "/" = true /\ Normalizer.clean_path pth = pth)
          \/ (PyStr.startswith pth "/" = false
              /\ Normalizer.clean_path pth = String "/" pth))
    /\ Normalizer.extract_endpoints L (doc_of_paths [("users", ["get"])])
         "https://api.example.com/v2/api-docs" None
       = Returned [fresh "users" "https://api.example.com/users" "GET"].
Proof.
  intros L url override servers.
  split; [|split; [|split; [|split; [|split; [|split; [|split]]]]]].
  - intros o -> Ho. split; [|split; [apply rstrip_no_trailing|apply rstrip_suffix]].
    unfold Normalizer.resolve_base_url. destruct o; [congruence|reflexivity].
  - intros fields rest u Hg -> Hu.
    split; [|split; [apply rstrip_no_trailing|apply rstrip_suffix]].
    unfold Normalizer.resolve_base_url. rewrite Hg.
    cbn [Json.truthy Json.first Json.get rbind]. by rewrite Hu.
  - intros scheme netloc Hg Hs Hp. unfold Normalizer.resolve_base_url.
    by rewrite Hg, Hs, Hp.
  - intros e Hg Hs Hp. unfold Normalizer.resolve_base_url.
    by rewrite Hg, Hs, Hp.
  - intros c0 before authority rest -> Hplain Hc0 Hbefore Hsafe Hauth Hrest.
    unfold Url.urlparse. rewrite Hplain. f_equal.
    by apply split_plain_shape.
  - intros api_docs eps H.
    destruct (extract_endpoints_emits L api_docs url override eps H)
      as (fields & base & Hd & Hb & Hall).
    exists fields, base. split; [exact Hd|]. split; [exact Hb|].
    eapply Forall_impl; [exact Hall|]. by intros ep [Hf _].
  - apply clean_path_cases.
  - reflexivity.
Qed.

Lemma base_url_resolution_order_witness :
  Normalizer.resolve_base_url unconsulted (JArr []) example_url
    (Some "http://h/api//")
  = Returned "http://h/api"
  /\ Normalizer.resolve_base_url unconsulted
       (JArr [JObj [("url", JStr "https://srv.example.com/v1/")]]) example_url None
     = Returned "https://srv.example.com/v1"
  /\ Normalizer.resolve_base_url unconsulted (JArr []) example_url None
     = Returned "https://api.example.com"
  /\ Url.urlparse unconsulted example_url = Returned ("https", "api.example.com")
  /\ exists fields base,
       doc_with_servers (JArr [JObj [("url", JStr "https://srv.example.com/v1/")]])
         [("users", ["get"])] = JObj fields
       /\ Normalizer.resolve_base_url unconsulted
            (default (JArr []) (Json.assoc "servers" fields)) example_url None
          = Returned base
       /\ Forall (fun ep => full_url ep = base ++ Normalizer.clean_path (path ep))
            [fresh "users" "https://srv.example.com/v1/users" "GET"].
Proof.
  destruct (base_url_resolution_order unconsulted example_url
              (Some "http://h/api//") (JArr [])) as (H1 & _).
  destruct (base_url_resolution_order unconsulted example_url None
              (JArr [JObj [("url", JStr "https://srv.example.com/v1/")]]))
    as (_ & H2 & _).
  destruct (base_url_resolution_order unconsulted example_url None (JArr []))
    as (_ & _ & H3 & _ & H3b & H4 & _).
  assert ("http://h/api//" <> "") as Hne by discriminate.
  pose proof (proj1 (H1 _ eq_refl Hne)) as A1.
  assert (default (JStr "")
            (Json.assoc "url" [("url", JStr "https://srv.example.com/v1/")])
          = JStr "https://srv.example.com/v1/") as Hu
    by (vm_compute; reflexivity).
  pose proof (proj1 (H2 _ [] _ eq_refl eq_refl Hu)) as A2.
  assert (Url.urlparse unconsulted example_url = Returned ("https", "api.example.com"))
    as Hp by (vm_compute; reflexivity).
  pose proof (H3 _ _ eq_refl eq_refl Hp) as A3.
  assert (Url.urlparse unconsulted example_url
          = Returned (PyStr.lower "https", "api.example.com")) as A3b.
  { apply (H3b "h"%char "ttps" "api.example.com" "/v2/api-docs");
      try (vm_compute; reflexivity).
    right. exists "/"%char, "v2/api-docs". split; vm_compute; reflexivity. }
  assert (Normalizer.extract_endpoints unconsulted
            (doc_with_servers (JArr [JObj [("url", JStr "https://srv.example.com/v1/")]])
               [("users", ["get"])])
            example_url None
          = Returned [fresh "users" "https://srv.example.com/v1/users" "GET"]) as Hx
    by (vm_compute; reflexivity).
  pose proof (H4 _ _ Hx) as A4.
  vm_compute in A1. vm_compute in A2. vm_compute in A3. vm_compute in A3b.
  split; [exact A1|]. split; [exact A2|]. split; [exact A3|].
  split; [exact A3b|]. exact A4.
Defined.

(** C7, at the inputs where the code departs from it: when the first
    [servers] entry has no [url], an empty [url] or a relative [url], the
    base is that value as it stands, there is no fall-back to the document
    URL, and the [full_url] of the endpoint is the bare path or a relative
    path, not an absolute URL, although the document URL is absolute. *)
Theorem full_url_relative_when_server_url_is :
  forall L : pylib,
    Normalizer.extract_endpoints L
      (doc_with_servers (JArr [JObj []]) [("/users", ["get"])]) example_url None
    = Returned [fresh "/users" "/users" "GET"]
    /\ Normalizer.extract_endpoints L
         (doc_with_servers (JArr [JObj [("url", JStr "")]]) [("/users", ["get"])])
         example_url None
       = Returned [fresh "/users" "/users" "GET"]
    /\ Normalizer.extract_endpoints L
         (doc_with_servers (JArr [JObj [("url", JStr "/api/v1/")]])
            [("/users", ["get"])])
         example_url None
       = Returned [fresh "/users" "/api/v1/users" "GET"]
    /\ Url.is_absolute "/users" = false
    /\ Url.is_absolute "/api/v1/users" = false
    /\ Url.is_absolute example_url = true
    /\ Normalizer.extract_endpoints L
         (doc_of_paths [("/users", ["get"])]) example_url None
       = Returned [fresh "/users" "https://api.example.com/users" "GET"].
Proof. intros L. repeat split; reflexivity. Qed.

(** ** The whole run *)

Section RunFacts.

Local Open Scope list_scope.
Variable E : env.

Lemma bind_returned {A B} (m : Run A) (k : A -> Run B) (w w' : world) (a : A) :
  m w = (Returned a, w') -> bind m k w = k a w'.
Proof. unfold bind. by intros ->. Qed.

Lemma bind_raised {A B} (m : Run A) (k : A -> Run B) (w w' : world) (e : pyexc) :
  m w = (Raised e, w') -> bind m k w = (Raised e, w').
Proof. unfold bind. by intros ->. Qed.

Lemma bind_exited {A B} (m : Run A) (k : A -> Run B) (w w' : world) (n : Z) :
  m w = (Exited n, w') -> bind m k w = (Exited n, w').
Proof. unfold bind. by intros ->. Qed.

Lemma fetch_api_docs_cases (u : string) (w : world) :
  (exists d, fetch_reply E u = DocDecoded d
             /\ Main.fetch_api_docs E u w = (Returned d, w))
  \/ (fetch_fails E u
      /\ (Main.fetch_api_docs E u w = (Exited 1, w)
          \/ exists e, Main.fetch_api_docs E u w = (Raised e, w))).
Proof.
  unfold Main.fetch_api_docs, fetch_fails.
  destruct (fetch_reply E u) as [e|d|] eqn:Hf.
  - right. split; [congruence|].
    destruct (is_RequestException e); [by left|].
    destruct e; try (right; eexists; reflexivity); by left.
  - left. by exists d.
  - right. split; [congruence|by left].
Qed.

Lemma methods_loop_not_exited (L : pylib) (base pth : string)
    (ms : list (string * json)) (n : Z) :
  Normalizer.methods_loop L base pth ms <> Exited n.
Proof.
  induction ms as [|[m details] rest IH]; cbn [Normalizer.methods_loop]; [done|].
  destruct (PyStr.mem (Py.upper L m) HTTP_VERBS); [|exact IH].
  destruct details; cbn [Json.get rbind]; try done.
  destruct (Normalizer.methods_loop L base pth rest); cbn [rbind]; congruence.
Qed.

Lemma paths_loop_not_exited (L : pylib) (base : string)
    (paths : list (string * json)) (n : Z) :
  Normalizer.paths_loop L base paths <> Exited n.
Proof.
  induction paths as [|[pth methods] rest IH]; cbn [Normalizer.paths_loop]; [done|].
  destruct methods; cbn [Json.items rbind]; try done.
  pose proof (methods_loop_not_exited L base pth fields) as Hm.
  destruct (Normalizer.methods_loop L base pth fields); cbn [rbind];
    [|done|by destruct (Hm status)].
  destruct (Normalizer.paths_loop L base rest); cbn [rbind]; congruence.
Qed.

Lemma urlparse_not_exited (L : pylib) (u : string) (n : Z) :
  Url.urlparse L u <> Exited n.
Proof.
  unfold Url.urlparse. destruct (Url.plain u); [done|].
  by destruct (lib_urlparse L u).
Qed.

Lemma extract_endpoints_not_exited (L : pylib) (d : json) (u : string)
    (override : option string) (n : Z) :
  Normalizer.extract_endpoints L d u override <> Exited n.
Proof.
  unfold Normalizer.extract_endpoints.
  destruct d; cbn [Json.get rbind]; try done.
  assert (forall m, Normalizer.resolve_base_url L
                      (default (JArr []) (Json.assoc "servers" fields)) u override
                    <> Exited m) as Hb.
  { intros m. unfold Normalizer.resolve_base_url.
    destruct (Normalizer.given override); [done|].
    destruct (Json.truthy _).
    2:{ pose proof (urlparse_not_exited L u) as Hu.
        destruct (Url.urlparse L u) as [p| |k]; cbn [rbind]; try done.
        by destruct (Hu k). }
    destruct (default (JArr []) (Json.assoc "servers" fields)) as [| | |s|l|l];
      try done.
    - destruct s; done.
    - destruct l as [|x l]; [done|]. cbn [Json.first rbind].
      destruct x; cbn [Json.get rbind]; try done.
      destruct (default (JStr "") (Json.assoc "url" fields0)); done. }
  destruct (Normalizer.resolve_base_url L _ u override) as [base| |m] eqn:Hr;
    cbn [rbind]; [|done|by destruct (Hb m)].
  destruct (default (JObj []) (Json.assoc "paths" fields)); cbn [Json.items rbind];
    try done.
  apply paths_loop_not_exited.
Qed.

Lemma method_phase_cases (a : args) (w : world) :
  (filter_invalid E a /\ Main.method_phase E a w = (Exited 1, w))
  \/ (~ filter_invalid E a
      /\ exists allowed, Main.method_phase E a w = (Returned allowed, w)).
Proof.
  unfold Main.method_phase, filter_invalid.
  destruct (Main.str_given (a_method a)).
  - destruct (MethodFilter.parse_methods _ _) as [|m l] eqn:Hp.
    + by left.
    + right. split; [intros [_ H]; discriminate|]. by eexists.
  - right. split; [intros [H _]; discriminate|]. by eexists.
Qed.

(** The probing phase returns, and what it sends is nothing or the
    requests planned for some positions of the endpoints. *)
Lemma probe_phase_trace (a : args) (eps : list endpoint)
    (allowed : option (list string)) (w : world) :
  exists eps' rqs,
    Main.probe_phase E a eps allowed w = (Returned eps', with_sent w rqs)
    /\ map erase eps' = map erase eps
    /\ (rqs = [] \/ (a_request_none a = false
                     /\ exists refs, rqs = planned eps refs)).
Proof.
  unfold Main.probe_phase. destruct (a_request_none a).
  - exists (map (set_outcome 0 0) eps), []. rewrite with_sent_nil.
    split; [done|]. split; [|by left].
    rewrite map_map. apply map_ext. intros ep. apply erase_set_outcome.
  - destruct (Main.request_policy a) as [limit incl].
    destruct (request_all_endpoints_spec E eps limit incl allowed w)
      as (eps' & Hrun & Her & _).
    eexists _, _. split; [exact Hrun|]. split; [exact Her|].
    right. split; [done|]. by eexists.
Qed.

(** The CSV step returns, sends nothing and leaves behind what
    [csv_left] says. *)
Lemma generate_csv_returns (eps : list endpoint) (f : string) (w : world) :
  exists r,
    Main.generate_csv E eps f w
    = (Returned r,
       {| sent := sent w;
          files := files w
                   ++ csv_left E (PyStr.replace ".html" ".csv" f)
                        (Render.csv_rows eps) |}).
Proof.
  unfold Main.generate_csv, try_except, bind, Main.write_file, csv_left.
  destruct (write_reply E _ _); cbn [ret].
  - by eexists.
  - eexists. rewrite app_nil_r. by destruct w.
  - by eexists.
Qed.

(** The course of a run with a URL: it stops before the probing phase
    with status 1 and the world as it was, or it goes through the probing
    phase and then ends according to the [info] value and to what happens
    when the HTML file is written. *)
Lemma main_course (a : args) (w : world) :
  Main.str_given (a_url a) = true ->
  let u := default EmptyString (a_url a) in
  let html := Main.extract_domain_from_url E u in
  let csv := PyStr.replace ".html" ".csv" html in
  ((fetch_fails E u \/ normalizing_raises E u \/ filter_invalid E a)
   /\ Main.main E a w = (Exited 1, w))
  \/ (exists d eps allowed eps' rqs,
        fetch_reply E u = DocDecoded d
        /\ Normalizer.extract_endpoints (lib E) d u None = Returned eps
        /\ Main.method_phase E a w = (Returned allowed, w)
        /\ Main.probe_phase E a eps allowed w = (Returned eps', with_sent w rqs)
        /\ map erase eps' = map erase eps
        /\ (rqs = [] \/ (a_request_none a = false
                         /\ exists refs, rqs = planned eps refs))
        /\ ((exists v, Json.get d "info" (JObj []) = Returned v
                       /\ (forall l, v <> JObj l)
                       /\ Main.main E a w = (Exited 1, with_sent w rqs))
            \/ (exists info page,
                  Json.get d "info" (JObj []) = Returned (JObj info)
                  /\ Render.generate_html eps' (JObj info) = Returned page
                  /\ match write_reply E html (HtmlFile page) with
                     | OpenFails _ =>
                         Main.main E a w = (Exited 1, with_sent w rqs)
                     | WriteFails _ =>
                         Main.main E a w
                         = (Exited 1,
                            {| sent := sent w ++ rqs;
                               files := files w ++ [(html, Truncated)] |})
                     | Written =>
                         Main.main E a w
                         = (Returned tt,
                            {| sent := sent w ++ rqs;
                               files := files w
                                        ++ (html, HtmlFile page)
                                           :: csv_left E csv (Render.csv_rows eps') |})
                     end))).
Proof.
  intros Hurl u html csv. unfold Main.main. rewrite Hurl. cbn [negb].
  fold u. fold html. unfold try_except.
  destruct (fetch_api_docs_cases u w)
    as [(d & Hf & Hrun)|(Hff & [Hrun|[e Hrun]])].
  2:{ rewrite (bind_exited _ _ _ _ _ Hrun). left. split; [by left|done]. }
  2:{ rewrite (bind_raised _ _ _ _ _ Hrun). left. split; [by left|done]. }
  rewrite (bind_returned _ _ _ _ _ Hrun).
  destruct (Normalizer.extract_endpoints (lib E) d u None) as [eps|e|n] eqn:Hx.
  3:{ by destruct (extract_endpoints_not_exited (lib E) d u None n). }
  2:{ rewrite (bind_raised _ _ w w e) by done. left. split; [|done].
      right; left. exists d. split; [done|]. congruence. }
  rewrite (bind_returned _ _ w w eps) by done.
  destruct (method_phase_cases a w) as [[Hinv Hm]|[Hval [allowed Hm]]].
  { rewrite (bind_exited _ _ _ _ _ Hm). left. split; [|done]. by right; right. }
  rewrite (bind_returned _ _ _ _ _ Hm).
  destruct (probe_phase_trace a eps allowed w) as (eps' & rqs & Hp & Her & Hrqs).
  rewrite (bind_returned _ _ _ _ _ Hp).
  right. exists d, eps, allowed, eps', rqs.
  do 6 (split; [done|]).
  destruct (extract_endpoints_emits (lib E) d u None eps Hx)
    as (fields & base & -> & _).
  set (v := default (JObj []) (Json.assoc "info" fields)).
  assert (Json.get (JObj fields) "info" (JObj []) = Returned v) as Hv by reflexivity.
  rewrite (bind_returned _ _ (with_sent w rqs) (with_sent w rqs) v) by done.
  destruct v as [| | | |l|info] eqn:Hvv;
    try (rewrite (bind_raised _ _ (with_sent w rqs) (with_sent w rqs) AttributeError)
           by done;
         left; exists v; subst v; rewrite Hvv;
         split; [done|]; split; [intros l0; discriminate|done]).
  right.
  destruct (Render.generate_html eps' (JObj info)) as [page| |] eqn:Hh;
    try discriminate.
  exists info, page. split; [by rewrite Hv|]. split; [done|].
  rewrite (bind_returned _ _ (with_sent w rqs) (with_sent w rqs) page) by done.
  destruct (write_reply E html (HtmlFile page)) eqn:Hcw;
    unfold bind at 1, Main.write_file at 1; rewrite Hcw; [|done|done].
  destruct (generate_csv_returns eps' html
              {| sent := sent (with_sent w rqs);
                 files := files (with_sent w rqs) ++ [(html, HtmlFile page)] |})
    as (r & Hcsv).
  rewrite (bind_returned _ _ _ _ _ Hcsv). cbn [ret sent files with_sent].
  fold csv. by rewrite <- app_assoc.
Qed.



End RunFacts.




(* ================================================================== *)
(** * Further properties *)

(** ** Method filter *)

Section MethodFilterFacts.

Ltac all_ascii c := destruct c as [[] [] [] [] [] [] [] []].

Lemma filter_none_rejected {A} (p : A -> bool) (l : list A) :
  List.filter (fun x => negb (p x)) l = [] -> List.filter p l = l.
Proof.
  induction l as [|x l IH]; simpl; [done|].
  destruct (p x); simpl; [|discriminate]. intros H. by rewrite (IH H).
Qed.

Lemma parse_methods_eq (L : pylib) (s : string) :
  MethodFilter.parse_methods L s
  = if PyStr.is_empty s then [] else List.filter is_verb (method_tokens L s).
Proof.
  unfold MethodFilter.parse_methods. fold (method_tokens L s).
  destruct (PyStr.is_empty s); [done|].
  change (fun method => negb (PyStr.mem method HTTP_VERBS))
    with (fun method => negb (is_verb method)).
  change (fun method => PyStr.mem method HTTP_VERBS) with is_verb.
  destruct (List.filter (fun method => negb (is_verb method)) (method_tokens L s))
    eqn:Hinv; [|done].
  symmetry. by apply filter_none_rejected.
Qed.

Lemma is_verb_In (m : string) : is_verb m = true -> In m HTTP_VERBS.
Proof.
  unfold is_verb, PyStr.mem. intros H. apply existsb_exists in H as (x & Hx & He).
  apply String.eqb_eq in He. by subst.
Qed.

Lemma upper_char_comma (c : ascii) :
  Ascii.eqb (PyStr.upper_char c) "," = Ascii.eqb c ",".
Proof. all_ascii c; vm_compute; reflexivity. Qed.

Lemma lower_char_comma (c : ascii) :
  Ascii.eqb (PyStr.lower_char c) "," = Ascii.eqb c ",".
Proof. all_ascii c; vm_compute; reflexivity. Qed.

Lemma upper_char_space (c : ascii) :
  PyStr.is_space (PyStr.upper_char c) = PyStr.is_space c.
Proof. all_ascii c; vm_compute; reflexivity. Qed.

Lemma lower_char_space (c : ascii) :
  PyStr.is_space (PyStr.lower_char c) = PyStr.is_space c.
Proof. all_ascii c; vm_compute; reflexivity. Qed.

Lemma upper_char_idem (c : ascii) :
  PyStr.upper_char (PyStr.upper_char c) = PyStr.upper_char c.
Proof. all_ascii c; vm_compute; reflexivity. Qed.

Lemma upper_lower_char (c : ascii) :
  PyStr.upper_char (PyStr.lower_char c) = PyStr.upper_char c.
Proof. all_ascii c; vm_compute; reflexivity. Qed.

Lemma map_chars_compose (f g h : ascii -> ascii) (s : string) :
  (forall c, f (g c) = h c) ->
  PyStr.map_chars f (PyStr.map_chars g s) = PyStr.map_chars h s.
Proof.
  intros H. induction s as [|c s IH]; simpl; [done|]. by rewrite H, IH.
Qed.

Lemma split_map_chars (f : ascii -> ascii) (sep : ascii) (s : string) :
  (forall c, Ascii.eqb (f c) sep = Ascii.eqb c sep) ->
  PyStr.split sep (PyStr.map_chars f s) = map (PyStr.map_chars f) (PyStr.split sep s).
Proof.
  intros Hf. induction s as [|c s IH]; simpl; [done|].
  rewrite Hf, IH. destruct (Ascii.eqb c sep); [done|].
  by destruct (PyStr.split sep s).
Qed.

Lemma lstrip_map_chars (f : ascii -> ascii) (p : ascii -> bool) (s : string) :
  (forall c, p (f c) = p c) ->
  PyStr.lstrip_by p (PyStr.map_chars f s) = PyStr.map_chars f (PyStr.lstrip_by p s).
Proof.
  intros Hf. induction s as [|c s IH]; simpl; [done|].
  rewrite Hf. by destruct (p c).
Qed.

Lemma rstrip_map_chars (f : ascii -> ascii) (p : ascii -> bool) (s : string) :
  (forall c, p (f c) = p c) ->
  PyStr.rstrip_by p (PyStr.map_chars f s) = PyStr.map_chars f (PyStr.rstrip_by p s).
Proof.
  intros Hf. induction s as [|c s IH]; simpl; [done|].
  rewrite IH, Hf. destruct (PyStr.rstrip_by p s); simpl; by destruct (p c).
Qed.

Lemma strip_map_chars (f : ascii -> ascii) (s : string) :
  (forall c, PyStr.is_space (f c) = PyStr.is_space c) ->
  PyStr.strip (PyStr.map_chars f s) = PyStr.map_chars f (PyStr.strip s).
Proof.
  intros Hf. unfold PyStr.strip.
  by rewrite rstrip_map_chars, lstrip_map_chars.
Qed.

Lemma is_empty_map_chars (f : ascii -> ascii) (s : string) :
  PyStr.is_empty (PyStr.map_chars f s) = PyStr.is_empty s.
Proof. by destruct s. Qed.

Lemma upper_char_ascii (c : ascii) :
  (PyStr.code c <? 128)%N = true -> (PyStr.code (PyStr.upper_char c) <? 128)%N = true.
Proof. all_ascii c; vm_compute; intros H; congruence. Qed.

Lemma lower_char_ascii (c : ascii) :
  (PyStr.code c <? 128)%N = true -> (PyStr.code (PyStr.lower_char c) <? 128)%N = true.
Proof. all_ascii c; vm_compute; intros H; congruence. Qed.

Lemma is_ascii_map_chars (f : ascii -> ascii) (s : string) :
  (forall c, (PyStr.code c <? 128)%N = true -> (PyStr.code (f c) <? 128)%N = true) ->
  PyStr.is_ascii s = true -> PyStr.is_ascii (PyStr.map_chars f s) = true.
Proof.
  intros Hf. induction s as [|c s IH]; cbn [PyStr.is_ascii PyStr.map_chars]; [done|].
  intros [Hc Hs]%andb_prop. by rewrite (Hf c Hc), (IH Hs).
Qed.

Lemma is_ascii_lstrip_by (p : ascii -> bool) (s : string) :
  PyStr.is_ascii s = true -> PyStr.is_ascii (PyStr.lstrip_by p s) = true.
Proof.
  induction s as [|c s IH]; cbn [PyStr.lstrip_by]; [done|].
  destruct (p c); [|done]. cbn [PyStr.is_ascii].
  intros [_ Hs]%andb_prop. by apply IH.
Qed.

Lemma is_ascii_rstrip_by (p : ascii -> bool) (s : string) :
  PyStr.is_ascii s = true -> PyStr.is_ascii (PyStr.rstrip_by p s) = true.
Proof.
  induction s as [|c s IH]; cbn [PyStr.rstrip_by PyStr.is_ascii]; [done|].
  intros [Hc Hs]%andb_prop.
  destruct (PyStr.is_empty (PyStr.rstrip_by p s) && p c); [done|].
  cbn [PyStr.is_ascii]. by rewrite Hc, (IH Hs).
Qed.

Lemma is_ascii_strip (s : string) :
  PyStr.is_ascii s = true -> PyStr.is_ascii (PyStr.strip s) = true.
Proof.
  intros H. unfold PyStr.strip. by apply is_ascii_lstrip_by, is_ascii_rstrip_by.
Qed.

Lemma is_ascii_split (sep : ascii) (s : string) :
  PyStr.is_ascii s = true ->
  Forall (fun m => PyStr.is_ascii m = true) (PyStr.split sep s).
Proof.
  induction s as [|c s IH]; cbn [PyStr.split PyStr.is_ascii].
  { intros _. by repeat constructor. }
  intros [Hc Hs]%andb_prop. specialize (IH Hs).
  destruct (Ascii.eqb c sep); [by constructor|].
  destruct (PyStr.split sep s) as [|w ws].
  - repeat constructor. cbn [PyStr.is_ascii]. by rewrite Hc.
  - inversion IH as [|? ? Hw Hws]. subst. constructor; [|done].
    cbn [PyStr.is_ascii]. by rewrite Hc, Hw.
Qed.

(** On a filter string of ASCII characters the tokens are those of the
    ASCII operations: the library is not consulted. *)
Lemma method_tokens_ascii (L : pylib) (s : string) :
  PyStr.is_ascii s = true ->
  method_tokens L s
  = map (fun m => PyStr.upper (PyStr.strip m)) (PyStr.split "," s).
Proof.
  intros Hs. unfold method_tokens.
  pose proof (is_ascii_split "," s Hs) as Hall.
  induction Hall as [|m ms Hm _ IH]; cbn [map]; [done|].
  rewrite IH. f_equal. unfold Py.strip, Py.upper.
  by rewrite Hm, (is_ascii_strip m Hm).
Qed.

Lemma ascii_tokens_map_chars (f : ascii -> ascii) (s : string) :
  (forall c, Ascii.eqb (f c) "," = Ascii.eqb c ",") ->
  (forall c, PyStr.is_space (f c) = PyStr.is_space c) ->
  (forall c, PyStr.upper_char (f c) = PyStr.upper_char c) ->
  map (fun m => PyStr.upper (PyStr.strip m)) (PyStr.split "," (PyStr.map_chars f s))
  = map (fun m => PyStr.upper (PyStr.strip m)) (PyStr.split "," s).
Proof.
  intros Hc Hs Hu.
  rewrite split_map_chars by exact Hc. rewrite map_map. apply map_ext.
  intros m. rewrite strip_map_chars by exact Hs.
  unfold PyStr.upper. by apply map_chars_compose.
Qed.

End MethodFilterFacts.

(** X1. On a non-empty filter string, [parse_methods] returns exactly the
    valid tokens among the comma-separated, stripped and upper-cased pieces,
    in their order and with their repetitions, whether or not an invalid
    token is present; the empty string gives the empty list.  Every method
    it returns is one of the seven verbs.  On a filter string of ASCII
    characters the pieces are stripped of TAB, LF, VT, FF, CR, FS, GS, RS,
    US and spaces, and the letters a to z are upper-cased. *)
Theorem parse_methods_keeps_valid_tokens :
  forall (L : pylib) (s : string),
    MethodFilter.parse_methods L s
    = (if PyStr.is_empty s then [] else List.filter is_verb (method_tokens L s))
    /\ Forall (fun m => In m HTTP_VERBS) (MethodFilter.parse_methods L s)
    /\ (PyStr.is_ascii s = true ->
        method_tokens L s
        = map (fun m => PyStr.upper (PyStr.strip m)) (PyStr.split "," s))
    /\ MethodFilter.parse_methods L "get, Post ,,foo,PUT,get"
       = ["GET"; "POST"; "PUT"; "GET"].
Proof.
  intros L s. split; [apply parse_methods_eq|]. split.
  - rewrite parse_methods_eq. destruct (PyStr.is_empty s); [constructor|].
    apply Forall_forall. intros m Hm. apply list_elem_of_In in Hm.
    apply filter_In in Hm as [_ Hm]. by apply is_verb_In.
  - split; [apply method_tokens_ascii|]. reflexivity.
Qed.

Lemma parse_methods_keeps_valid_tokens_witness :
  method_tokens unconsulted "get, Post ,,foo"
  = map (fun m => PyStr.upper (PyStr.strip m)) (PyStr.split "," "get, Post ,,foo").
Proof.
  assert (PyStr.is_ascii "get, Post ,,foo" = true) as Hs by (vm_compute; reflexivity).
  exact (proj1 (proj2 (proj2
           (parse_methods_keeps_valid_tokens unconsulted "get, Post ,,foo"))) Hs).
Defined.

(** X2. On a filter string of ASCII characters the method filter does not
    depend on the case of its input: upper-casing or lower-casing the
    whole filter string gives the same methods. *)
Theorem parse_methods_ignores_case :
  forall (L : pylib) (s : string),
    PyStr.is_ascii s = true ->
    MethodFilter.parse_methods L (Py.upper L s) = MethodFilter.parse_methods L s
    /\ MethodFilter.parse_methods L (PyStr.upper s) = MethodFilter.parse_methods L s
    /\ MethodFilter.parse_methods L (PyStr.lower s) = MethodFilter.parse_methods L s.
Proof.
  intros L s Hs.
  assert (PyStr.is_ascii (PyStr.upper s) = true) as Hu
    by (apply is_ascii_map_chars; [apply upper_char_ascii|done]).
  assert (PyStr.is_ascii (PyStr.lower s) = true) as Hl
    by (apply is_ascii_map_chars; [apply lower_char_ascii|done]).
  assert (MethodFilter.parse_methods L (PyStr.upper s)
          = MethodFilter.parse_methods L s) as Hup.
  { rewrite !parse_methods_eq, !method_tokens_ascii by done.
    unfold PyStr.upper at 1 3. rewrite is_empty_map_chars.
    rewrite ascii_tokens_map_chars;
      auto using upper_char_comma, upper_char_space, upper_char_idem. }
  split; [|split; [exact Hup|]].
  - unfold Py.upper. by rewrite Hs.
  - rewrite !parse_methods_eq, !method_tokens_ascii by done.
    unfold PyStr.lower at 1 2. rewrite is_empty_map_chars.
    rewrite ascii_tokens_map_chars;
      auto using lower_char_comma, lower_char_space, upper_lower_char.
Qed.

Lemma parse_methods_ignores_case_witness :
  MethodFilter.parse_methods unconsulted "GET, POST"
  = MethodFilter.parse_methods unconsulted "Get, post"
  /\ MethodFilter.parse_methods unconsulted "get, post"
     = MethodFilter.parse_methods unconsulted "Get, post".
Proof.
  assert (PyStr.is_ascii "Get, post" = true) as Hs by (vm_compute; reflexivity).
  destruct (parse_methods_ignores_case unconsulted "Get, post" Hs) as (_ & Hu & Hl).
  vm_compute in Hu. vm_compute in Hl. vm_compute. split; [exact Hu|exact Hl].
Defined.

(** ** Normalizer: what is emitted and when it raises *)

Section ExtractFacts.

Local Open Scope list_scope.
Variable L : pylib.

Lemma methods_loop_pairs (base pth : string) (ms : list (string * json)) :
  forall eps,
    Normalizer.methods_loop L base pth ms = Returned eps ->
    map pair_of eps
    = map (fun md => (pth, Py.upper L (fst md)))
          (List.filter (fun md => is_verb (Py.upper L (fst md))) ms).
Proof.
  induction ms as [|[m details] rest IH]; intros eps;
    cbn [Normalizer.methods_loop List.filter fst].
  { intros H. by inversion H. }
  unfold is_verb at 1.
  destruct (PyStr.mem (Py.upper L m) HTTP_VERBS) eqn:Hm; [|apply IH].
  destruct details; cbn [Json.get rbind]; try discriminate.
  destruct (Normalizer.methods_loop L base pth rest) as [eps0| |];
    cbn [rbind]; try discriminate.
  intros H. inversion H. subst eps. cbn [map]. f_equal. by apply IH.
Qed.

Lemma paths_loop_pairs (base : string) (paths : list (string * json)) :
  forall eps,
    Normalizer.paths_loop L base paths = Returned eps ->
    map pair_of eps = verb_pairs L paths.
Proof.
  induction paths as [|[pth methods] rest IH]; intros eps;
    cbn [Normalizer.paths_loop].
  { intros H. by inversion H. }
  destruct methods; cbn [Json.items rbind]; try discriminate.
  destruct (Normalizer.methods_loop L base pth fields) as [here| |] eqn:Hh;
    cbn [rbind]; try discriminate.
  destruct (Normalizer.paths_loop L base rest) as [later| |];
    cbn [rbind]; try discriminate.
  intros H. inversion H. unfold verb_pairs. cbn [flat_map snd fst].
  rewrite map_app. f_equal.
  - by apply (methods_loop_pairs base).
  - by apply IH.
Qed.

Lemma methods_loop_returns (base pth : string) (ms : list (string * json)) :
  (exists eps, Normalizer.methods_loop L base pth ms = Returned eps)
  <-> operations_ok L ms = true.
Proof.
  induction ms as [|[m details] rest IH];
    cbn [Normalizer.methods_loop operations_ok forallb fst snd].
  { split; [done|]. by eexists. }
  unfold is_verb at 1.
  destruct (PyStr.mem (Py.upper L m) HTTP_VERBS); [|exact IH].
  destruct details; cbn [Json.get rbind is_object andb];
    try (split; [intros [eps H]; discriminate|discriminate]).
  fold (operations_ok L rest). rewrite <- IH.
  destruct (Normalizer.methods_loop L base pth rest) as [eps0| |]; cbn [rbind].
  - split; intros _; by eexists.
  - split; intros [eps H]; discriminate.
  - split; intros [eps H]; discriminate.
Qed.

Lemma paths_loop_returns (base : string) (pl : list (string * json)) :
  (exists eps, Normalizer.paths_loop L base pl = Returned eps)
  <-> paths_ok L (JObj pl) = true.
Proof.
  cbn [paths_ok].
  induction pl as [|[pth methods] rest IH];
    cbn [Normalizer.paths_loop forallb snd].
  { split; [done|]. by eexists. }
  destruct methods; cbn [Json.items rbind andb];
    try (split; [intros [eps H]; discriminate|discriminate]).
  pose proof (methods_loop_returns base pth fields) as Hm.
  destruct (operations_ok L fields); cbn [andb].
  - destruct (proj2 Hm eq_refl) as [here ->]. cbn [rbind]. rewrite <- IH.
    destruct (Normalizer.paths_loop L base rest) as [later| |]; cbn [rbind].
    + split; intros _; by eexists.
    + split; intros [eps H]; discriminate.
    + split; intros [eps H]; discriminate.
  - split; [|discriminate]. intros [eps H].
    destruct (Normalizer.methods_loop L base pth fields) as [here| |];
      cbn [rbind] in H; try discriminate.
    assert (false = true) by (apply Hm; by eexists). discriminate.
Qed.

Lemma resolve_base_url_returns (servers : json) (url : string)
    (override : option string) :
  (exists base, Normalizer.resolve_base_url L servers url override = Returned base)
  <-> base_ok L servers url override = true.
Proof.
  unfold Normalizer.resolve_base_url, base_ok.
  destruct (Normalizer.given override); cbn [orb]; [split; [done|by eexists]|].
  destruct (Json.truthy servers) eqn:Ht; cbn [negb orb].
  2:{ unfold url_parses. destruct (Url.urlparse L url); cbn [rbind].
      - split; [done|by eexists].
      - split; [intros [bs H]; discriminate|discriminate].
      - split; [intros [bs H]; discriminate|discriminate]. }
  destruct servers as [|b|n|s|l|l]; cbn [Json.first rbind];
    try (split; [intros [bs H]; discriminate|discriminate]).
  - destruct s; cbn [rbind Json.get];
      (split; [intros [bs H]; discriminate|discriminate]).
  - destruct l as [|x l]; [discriminate|]. cbn [rbind].
    destruct x; cbn [Json.get rbind];
      try (split; [intros [bs H]; discriminate|discriminate]).
    destruct (Json.assoc "url" fields) as [v|]; cbn [default];
      [|split; [done|by eexists]].
    destruct v; cbn [Json.rstrip_slash];
      try (split; [intros [bs H]; discriminate|discriminate]).
    split; [done|by eexists].
Qed.

(** A plain URL always parses. *)
Lemma plain_url_parses (url : string) :
  Url.plain url = true -> url_parses L url = true.
Proof. unfold url_parses, Url.urlparse. by intros ->. Qed.

End ExtractFacts.

(** X3. When [extract_endpoints] returns, the (path, method) pairs of its
    descriptors are exactly the pairs the [paths] dict declares under keys
    whose upper-cased form is an HTTP verb: in document order, with the
    path as declared and the method upper-cased.  Keys that are no verbs
    are passed over whatever their value is, and the number of descriptors
    is the number of verb-keyed pairs. *)
Theorem extract_endpoints_emits_verb_pairs :
  forall (L : pylib) (api_docs : json) (url : string) (override : option string)
         (eps : list endpoint),
    Normalizer.extract_endpoints L api_docs url override = Returned eps ->
    exists fields,
      api_docs = JObj fields
      /\ map pair_of eps = verb_pairs L (paths_of fields)
      /\ length eps = length (verb_pairs L (paths_of fields)).
Proof.
  intros L api_docs url override eps H.
  unfold Normalizer.extract_endpoints in H.
  destruct api_docs; cbn [Json.get rbind] in H; try discriminate.
  destruct (Normalizer.resolve_base_url L _ url override) as [base| |];
    cbn [rbind] in H; try discriminate.
  exists fields. split; [done|]. unfold paths_of.
  destruct (default (JObj []) (Json.assoc "paths" fields));
    cbn [Json.items rbind] in H; try discriminate.
  pose proof (paths_loop_pairs L base fields0 eps H) as Hp.
  split; [exact Hp|]. by rewrite <- Hp, length_map.
Qed.

Lemma extract_endpoints_emits_verb_pairs_witness :
  exists fields,
    doc_of_paths [("/a", ["get"; "x-internal"; "Delete"]); ("b", ["parameters"; "post"])]
    = JObj fields
    /\ verb_pairs unconsulted (paths_of fields)
       = [("/a", "GET"); ("/a", "DELETE"); ("b", "POST")].
Proof.
  assert (exists eps,
            Normalizer.extract_endpoints unconsulted
              (doc_of_paths [("/a", ["get"; "x-internal"; "Delete"]);
                             ("b", ["parameters"; "post"])])
              example_url None = Returned eps) as [eps Hx]
    by (eexists; vm_compute; reflexivity).
  destruct (extract_endpoints_emits_verb_pairs _ _ _ _ _ Hx) as (fields & Hd & _).
  exists fields. split; [exact Hd|]. injection Hd as <-. vm_compute. reflexivity.
Defined.

(** X4. [extract_endpoints] returns exactly on the inputs of the expected
    shape, and raises on every other: the document must be a dict; unless
    an override is given, a true [servers] value must be a list whose first
    entry is a dict whose [url], if present, is a string, and with a false
    [servers] value [urlparse] must not raise on the document URL, which it
    never does on a URL of ASCII characters without square brackets;
    [paths] must be a dict of dicts in which every value under a key whose
    upper-cased form is a verb is a dict.  Values under other keys are not
    looked at. *)
Theorem extract_endpoints_returns_iff_shape_ok :
  forall (L : pylib) (api_docs : json) (url : string) (override : option string),
    ((exists eps, Normalizer.extract_endpoints L api_docs url override = Returned eps)
     <-> shape_ok L api_docs url override = true)
    /\ ((exists e, Normalizer.extract_endpoints L api_docs url override = Raised e)
        <-> shape_ok L api_docs url override = false)
    /\ (Url.plain url = true -> url_parses L url = true).
Proof.
  intros L api_docs url override.
  assert ((exists eps, Normalizer.extract_endpoints L api_docs url override
                       = Returned eps)
          <-> shape_ok L api_docs url override = true) as Hiff.
  { unfold Normalizer.extract_endpoints, shape_ok.
    destruct api_docs; cbn [Json.get rbind];
      try (split; [intros [eps H]; discriminate|discriminate]).
    pose proof (resolve_base_url_returns L
                  (default (JArr []) (Json.assoc "servers" fields)) url override)
      as Hb.
    destruct (base_ok L _ url override); cbn [andb].
    - destruct (proj2 Hb eq_refl) as [base ->]. cbn [rbind].
      destruct (default (JObj []) (Json.assoc "paths" fields)) as [|b|n|s|l|pl];
        cbn [Json.items rbind];
        try (split; [intros [eps H]; discriminate|discriminate]).
      apply paths_loop_returns.
    - split; [|discriminate]. intros [eps H].
      destruct (Normalizer.resolve_base_url L _ url override) as [base| |];
        cbn [rbind] in H; try discriminate.
      assert (false = true) by (apply Hb; by eexists). discriminate. }
  split; [exact Hiff|]. split; [|apply plain_url_parses].
  pose proof (extract_endpoints_not_exited L api_docs url override) as Hne.
  destruct (Normalizer.extract_endpoints L api_docs url override) as [eps|e|n].
  - destruct (shape_ok L api_docs url override).
    + split; [intros [e H]; discriminate|discriminate].
    + assert (false = true) by (apply Hiff; by eexists). discriminate.
  - split; [|intros _; by eexists]. intros _.
    destruct (shape_ok L api_docs url override); [|done].
    destruct (proj2 Hiff eq_refl) as [eps H]. discriminate.
  - by destruct (Hne n).
Qed.

Lemma extract_endpoints_returns_iff_shape_ok_witness :
  url_parses unconsulted example_url = true.
Proof.
  assert (Url.plain example_url = true) as Hp by (vm_compute; reflexivity).
  exact (proj2 (proj2 (extract_endpoints_returns_iff_shape_ok unconsulted
                         (JObj []) example_url None)) Hp).
Defined.

(** ** Probing and aggregation *)

Section ProbingFacts.

Local Open Scope list_scope.


Lemma wire_verb_not_delete (v : string) :
  PyStr.mem v WIRE_VERBS = true -> v <> "DELETE".
Proof. intros H ->. discriminate. Qed.

Lemma positions_to_request_zero (filtered : list nat) :
  Probe.positions_to_request filtered (Some 0) = filtered.
Proof. reflexivity. Qed.

Lemma positions_to_request_negative (filtered : list nat) (N : Z) :
  N < 0 ->
  Probe.positions_to_request filtered (Some N)
  = take (length filtered - Z.to_nat (- N)) filtered.
Proof.
  intros HN. unfold Probe.positions_to_request, Probe.slice_to, Probe.limit_set.
  change (default 0 (Some N)) with N.
  destruct (N =? 0) eqn:H0; [apply Z.eqb_eq in H0; lia|]. cbn [negb].
  destruct (0 <=? N) eqn:H1; [apply Z.leb_le in H1; lia|].
  f_equal. lia.
Qed.

End ProbingFacts.

(** X5. Whatever the limit, the DELETE flag, the allow-list and the
    network are, [request_all_endpoints] returns the endpoint sequence with
    its length, order and descriptors unchanged and writes no file.  It
    sends, in sequence order, one request for each selected endpoint whose
    method is one of GET, POST, PUT, PATCH, HEAD and OPTIONS, and nothing
    else.  Every endpoint that passes the method filter comes back with
    both outcome keys attached; every other endpoint comes back exactly as
    it went in. *)
Theorem aggregation_keeps_sequence :
  forall (E : env) (endpoints : list endpoint) (limit : option Z)
         (incl : bool) (allowed : option (list string)) (w : world),
    let filtered := Probe.filtered_positions endpoints allowed in
    let to_request := Probe.positions_to_request filtered limit in
    exists eps',
      Probe.request_all_endpoints E endpoints limit incl allowed w
      = (Returned eps', with_sent w (planned endpoints to_request))
      /\ length eps' = length endpoints
      /\ map erase eps' = map erase endpoints
      /\ (forall i, i ∈ filtered ->
            exists ep', eps' !! i = Some ep' /\ has_outcome ep')
      /\ (forall i, i ∉ filtered -> eps' !! i = endpoints !! i).
Proof.
  intros E endpoints limit incl allowed w filtered to_request.
  destruct (request_all_endpoints_spec E endpoints limit incl allowed w)
    as (eps' & Hrun & Her & Hout & Hreq & Hrest & _).
  fold filtered in Hrun, Hout, Hreq, Hrest. fold to_request in Hrun, Hreq, Hrest.
  exists eps'. split; [exact Hrun|].
  split; [by apply erase_fmap_length|]. split; [exact Her|]. split; [|exact Hout].
  intros i Hi.
  destruct (filtered_positions_elem endpoints allowed i Hi) as [ep Hep].
  destruct (positions_to_request_take filtered limit) as [k Hk].
  fold to_request in Hk.
  rewrite <- (take_drop_taken k filtered), <- Hk in Hi.
  apply elem_of_app in Hi as [Hi|Hi].
  - destruct (Hreq i ep Hi Hep) as (sc & cl & Hl & _).
    exists (set_outcome sc cl ep). split; [exact Hl|]. split; by eexists.
  - exists (set_outcome 0 0 ep). split; [by apply Hrest|]. split; by eexists.
Qed.

(** X6. A DELETE endpoint that passes the method filter is never requested
    and always ends with the outcome (0, 0), whether it falls within the
    limit or beyond it and whether DELETE is permitted or not; and no
    request sent by [request_all_endpoints] is a DELETE request. *)
Theorem delete_in_allow_list_is_always_skipped :
  forall (E : env) (endpoints : list endpoint) (limit : option Z)
         (incl : bool) (allowed : option (list string)) (w : world)
         (i : nat) (ep : endpoint),
    endpoints !! i = Some ep ->
    PyStr.upper (method ep) = "DELETE" ->
    i ∈ Probe.filtered_positions endpoints allowed ->
    exists eps' rqs,
      Probe.request_all_endpoints E endpoints limit incl allowed w
      = (Returned eps', with_sent w rqs)
      /\ eps' !! i = Some (set_outcome 0 0 ep)
      /\ Forall (fun rq => rq_verb rq <> "DELETE") rqs.
Proof.
  intros E endpoints limit incl allowed w i ep Hep Hd Hi.
  destruct (request_all_endpoints_spec E endpoints limit incl allowed w)
    as (eps' & Hrun & _ & _ & Hreq & Hrest & _).
  eexists eps', _. split; [exact Hrun|]. split.
  - destruct (positions_to_request_take
                (Probe.filtered_positions endpoints allowed) limit) as [k Hk].
    rewrite <- (take_drop_taken k (Probe.filtered_positions endpoints allowed)),
      <- Hk in Hi.
    apply elem_of_app in Hi as [Hi|Hi].
    + destruct (Hreq i ep Hi Hep) as (sc & cl & Hl & Hz).
      destruct Hz as [-> ->]; [|done]. unfold probe_of. by rewrite Hd.
    + by apply Hrest.
  - apply Forall_forall. intros rq Hrq.
    apply wire_verb_not_delete. by eapply planned_verbs.
Qed.

Lemma delete_in_allow_list_is_always_skipped_witness :
  exists eps' rqs,
    Probe.request_all_endpoints (always_200 JNull)
      [fresh "/a" "https://api.example.com/a" "DELETE"] None true None empty_world
    = (Returned eps', with_sent empty_world rqs)
    /\ eps' !! 0%nat
       = Some (set_outcome 0 0 (fresh "/a" "https://api.example.com/a" "DELETE")).
Proof.
  destruct (delete_in_allow_list_is_always_skipped (always_200 JNull)
              [fresh "/a" "https://api.example.com/a" "DELETE"] None true None
              empty_world 0%nat _ eq_refl eq_refl)
    as (eps' & rqs & Hrun & Hl & _).
  { vm_compute. apply list_elem_of_here. }
  by exists eps', rqs.
Defined.

(** X7. A limit of 0 is no limit: [-limit 0] selects every endpoint that
    passes the method filter, exactly as a run without [-limit], both in
    [request_all_endpoints] and in the policy [main] derives from the
    arguments. *)
Theorem limit_zero_is_no_limit :
  forall (E : env) (endpoints : list endpoint) (incl : bool)
         (allowed : option (list string)) (w : world)
         (u m : option string) (all none : bool),
    Probe.request_all_endpoints E endpoints (Some 0) incl allowed w
    = Probe.request_all_endpoints E endpoints None incl allowed w
    /\ Main.request_policy (mkArgs u (Some 0) all m none) = (None, all)
    /\ exists eps',
         Probe.request_all_endpoints E endpoints (Some 0) incl allowed w
         = (Returned eps',
            with_sent w (planned endpoints
                           (Probe.filtered_positions endpoints allowed))).
Proof.
  intros E endpoints incl allowed w u m all none. split; [reflexivity|]. split.
  - by destruct all.
  - destruct (request_all_endpoints_spec E endpoints (Some 0) incl allowed w)
      as (eps' & Hrun & _).
    rewrite positions_to_request_zero in Hrun. by exists eps'.
Qed.

(** X8. A negative limit counts from the end, as a Python slice does: with
    the limit -k the first (n - k) of the n endpoints that pass the method
    filter are selected, and each of the last k ends with the outcome
    (0, 0) without being requested. *)
Theorem negative_limit_drops_from_the_end :
  forall (E : env) (endpoints : list endpoint) (N : Z) (incl : bool)
         (allowed : option (list string)) (w : world),
    N < 0 ->
    let filtered := Probe.filtered_positions endpoints allowed in
    let kept := (length filtered - Z.to_nat (- N))%nat in
    exists eps',
      Probe.request_all_endpoints E endpoints (Some N) incl allowed w
      = (Returned eps', with_sent w (planned endpoints (take kept filtered)))
      /\ forall (k i : nat),
           (kept <= k)%nat -> filtered !! k = Some i ->
           exists ep, endpoints !! i = Some ep
                      /\ eps' !! i = Some (set_outcome 0 0 ep).
Proof.
  intros E endpoints N incl allowed w HN filtered kept.
  destruct (request_all_endpoints_spec E endpoints (Some N) incl allowed w)
    as (eps' & Hrun & _ & _ & _ & Hrest & _).
  fold filtered in Hrun, Hrest.
  rewrite (positions_to_request_negative filtered N HN) in Hrun, Hrest.
  fold kept in Hrun, Hrest.
  exists eps'. split; [exact Hrun|]. intros k i Hk Hki.
  destruct (filtered_positions_elem endpoints allowed i) as [ep Hep].
  { by eapply list_elem_of_lookup_2. }
  exists ep. split; [done|]. apply Hrest; [|done].
  apply list_elem_of_lookup. exists (k - length (take kept filtered))%nat.
  rewrite lookup_drop. rewrite <- Hki. f_equal.
  rewrite length_take. lia.
Qed.

Lemma negative_limit_drops_from_the_end_witness :
  exists eps',
    Probe.request_all_endpoints (always_200 JNull) two_gets (Some (-1)) false None
      empty_world
    = (Returned eps',
       with_sent empty_world
         (planned two_gets (take 1 (Probe.filtered_positions two_gets None)))).
Proof.
  destruct (negative_limit_drops_from_the_end (always_200 JNull) two_gets (-1)
              false None empty_world ltac:(lia)) as (eps' & Hrun & _).
  by exists eps'.
Defined.

(** ** The whole run: requests and reports *)

Section WholeRunFacts.

Local Open Scope list_scope.


Lemma html_rows_from_length (eps : list endpoint) (k : Z) :
  length (Render.html_rows_from k eps) = length eps.
Proof.
  revert k. induction eps as [|e l IH]; intros k; cbn; [reflexivity|].
  f_equal. apply IH.
Qed.

Lemma generate_html_page (eps : list endpoint) (info : json)
    (page : Render.html_page) :
  Render.generate_html eps info = Returned page ->
  Render.p_rows page = Render.html_rows_from 1 eps
  /\ Render.p_total page = Z.of_nat (length eps).
Proof.
  unfold Render.generate_html.
  destruct info; cbn [Json.get rbind]; try discriminate.
  intros H. inversion H. by split.
Qed.

End WholeRunFacts.



(** X10. A run that ends normally has fetched and normalized the
    document, has run the probing phase on the normalized endpoints, and
    has then written, after the files that were there, the HTML report
    and what [generate_csv] leaves of the CSV export, and nothing else.
    Both are built from the same endpoint sequence, the one the probing
    phase returned: the table and the export have one row per endpoint of
    the document, in the order of the document.  A CSV file that cannot be
    opened loses the export but does not change the end of the run. *)
Theorem normal_run_writes_html_then_csv :
  forall (E : env) (a : args) (w w' : world),
    Main.str_given (a_url a) = true ->
    Main.main E a w = (Returned tt, w') ->
    let u := default EmptyString (a_url a) in
    let html := Main.extract_domain_from_url E u in
    let csv := PyStr.replace ".html" ".csv" html in
    exists (d : json) (eps : list endpoint) (allowed : option (list string))
           (eps' : list endpoint) (rqs : list http_request)
           (info : list (string * json)) (page : Render.html_page),
      fetch_reply E u = DocDecoded d
      /\ Normalizer.extract_endpoints (lib E) d u None = Returned eps
      /\ Main.method_phase E a w = (Returned allowed, w)
      /\ Main.probe_phase E a eps allowed w = (Returned eps', with_sent w rqs)
      /\ Json.get d "info" (JObj []) = Returned (JObj info)
      /\ Render.generate_html eps' (JObj info) = Returned page
      /\ write_reply E html (HtmlFile page) = Written
      /\ sent w' = (sent w ++ rqs)%list
      /\ files w'
         = (files w
            ++ (html, HtmlFile page) :: csv_left E csv (Render.csv_rows eps'))%list
      /\ Render.p_rows page = Render.html_rows_from 1 eps'
      /\ Render.p_total page = Z.of_nat (length eps)
      /\ Render.csv_rows eps' = map Render.csv_row_of eps'
      /\ length (Render.csv_rows eps') = length eps
      /\ length (Render.p_rows page) = length eps
      /\ map erase eps' = map erase eps.
Proof.
  intros E a w w' Hurl Hmain u html csv.
  destruct (main_course E a w Hurl)
    as [[_ Hrun]
       |(d & eps & allowed & eps' & rqs & Hf & Hx & Hm & Hp & Her & _ & Hlate)].
  { rewrite Hmain in Hrun. discriminate. }
  destruct Hlate as [(v & _ & _ & Hrun)|(info & page & Hv & Hh & Hrun)].
  { rewrite Hmain in Hrun. discriminate. }
  fold u html csv in Hrun, Hf, Hx.
  destruct (write_reply E html (HtmlFile page)) eqn:Hw;
    rewrite Hmain in Hrun; try discriminate.
  inversion Hrun. subst w'. cbn [sent files].
  assert (length eps' = length eps) as Hlen by (by apply erase_fmap_length).
  destruct (generate_html_page eps' (JObj info) page Hh) as [Hrows Htotal].
  exists d, eps, allowed, eps', rqs, info, page.
  do 9 (split; [done|]).
  split; [exact Hrows|]. split; [by rewrite Htotal, Hlen|].
  split; [reflexivity|].
  split; [unfold Render.csv_rows; by rewrite length_map|].
  split; [|exact Her].
  by rewrite Hrows, html_rows_from_length.
Qed.

Lemma normal_run_writes_html_then_csv_witness :
  exists w' page,
    Main.main csv_unwritable url_only empty_world = (Returned tt, w')
    /\ files w' = [("api.example.com.html", HtmlFile page)]
    /\ sent w' = [request_for (fresh "/a" "https://api.example.com/a" "GET")].
Proof.
  assert (Main.str_given (a_url url_only) = true) as Hurl
    by (vm_compute; reflexivity).
  assert (exists w', Main.main csv_unwritable url_only empty_world = (Returned tt, w'))
    as [w' Hrun] by (eexists; vm_compute; reflexivity).
  destruct (normal_run_writes_html_then_csv csv_unwritable url_only empty_world w'
              Hurl Hrun)
    as (d & eps & allowed & eps' & rqs & info & page
        & Hf & Hx & Hm & Hp & _ & _ & _ & Hsent & Hfiles & _).
  exists w', page. split; [exact Hrun|].
  assert (rqs = [request_for (fresh "/a" "https://api.example.com/a" "GET")]) as ->.
  { vm_compute in Hf. injection Hf as <-.
    vm_compute in Hx. injection Hx as <-.
    vm_compute in Hm. injection Hm as <-.
    vm_compute in Hp. injection Hp as _ Hq. vm_compute. exact (eq_sym Hq). }
  split; [|exact Hsent].
  rewrite Hfiles. vm_compute. reflexivity.
Defined.

(** ** Report rows and file names *)

Section ReportFacts.

Ltac all_ascii c := destruct c as [[] [] [] [] [] [] [] []].

Lemma html_csv_status_display (i : Z) (ep : endpoint) :
  Render.h_status_display (Render.html_row_of i ep)
  = Render.c_status_display (Render.csv_row_of ep).
Proof.
  unfold Render.html_row_of, Render.csv_row_of.
  repeat match goal with
         | |- context [if ?b then _ else _] => destruct b
         end; reflexivity.
Qed.

Lemma html_row_plain_cells (i : Z) (ep : endpoint) :
  Render.h_index (Render.html_row_of i ep) = i
  /\ Render.h_method (Render.html_row_of i ep) = method ep
  /\ Render.h_path (Render.html_row_of i ep) = path ep
  /\ Render.h_href (Render.html_row_of i ep) = full_url ep
  /\ Render.h_name (Render.html_row_of i ep)
     = Render.py_str (Json.or (summary ep) (operationId ep)).
Proof.
  unfold Render.html_row_of.
  repeat match goal with
         | |- context [if ?b then _ else _] => destruct b
         end; repeat split; reflexivity.
Qed.

Lemma html_rows_lookup (eps : list endpoint) :
  forall (start : Z) (k : nat) (ep : endpoint),
    eps !! k = Some ep ->
    Render.html_rows_from start eps !! k
    = Some (Render.html_row_of (start + Z.of_nat k) ep).
Proof.
  induction eps as [|e l IH]; intros start k ep; [done|].
  destruct k as [|k]; cbn [Render.html_rows_from].
  - intros H. inversion H. subst. simpl. f_equal. f_equal. lia.
  - intros H. simpl in H. simpl lookup. rewrite (IH (start + 1) k ep H).
    f_equal. f_equal. lia.
Qed.

Lemma safe_char_is_file_name_char (c : ascii) :
  is_file_name_char (Main.safe_char c) = true.
Proof. all_ascii c; vm_compute; reflexivity. Qed.

Lemma map_safe_chars (s : string) :
  Url.all_chars is_file_name_char (PyStr.map_chars Main.safe_char s) = true.
Proof.
  induction s as [|c s IH]; simpl; [done|].
  by rewrite safe_char_is_file_name_char, IH.
Qed.

Lemma file_name_chars_stay (s : string) :
  Url.all_chars is_file_name_char s = true ->
  PyStr.contains_char "/" s = false /\ PyStr.contains_char ":" s = false.
Proof.
  induction s as [|c s IH]; simpl; [done|]. intros H.
  apply andb_true_iff in H as [Hc Hs]. destruct (IH Hs) as [-> ->].
  rewrite !orb_false_r.
  split; destruct (Ascii.eqb_spec c "/"), (Ascii.eqb_spec c ":"); subst;
    try done; discriminate.
Qed.

Lemma is_ascii_remove_chars (p : ascii -> bool) (s : string) :
  PyStr.is_ascii s = true -> PyStr.is_ascii (Url.remove_chars p s) = true.
Proof.
  induction s as [|c s IH]; cbn [Url.remove_chars PyStr.is_ascii]; [done|].
  intros [Hc Hs]%andb_prop. destruct (p c); [by apply IH|].
  cbn [PyStr.is_ascii]. by rewrite Hc, (IH Hs).
Qed.

Lemma is_ascii_break_at (p : ascii -> bool) (s : string) :
  PyStr.is_ascii s = true ->
  PyStr.is_ascii (fst (Url.break_at p s)) = true
  /\ PyStr.is_ascii (snd (Url.break_at p s)) = true.
Proof.
  induction s as [|c s IH]; cbn [Url.break_at PyStr.is_ascii]; [done|].
  intros H. destruct (p c); [by split|].
  apply andb_prop in H as [Hc Hs]. destruct (IH Hs) as [H1 H2].
  destruct (Url.break_at p s) as [x y]. cbn [fst snd PyStr.is_ascii] in *.
  by rewrite Hc, H1, H2.
Qed.

(** The network location of a URL of ASCII characters is made of ASCII
    characters. *)
Lemma split_plain_ascii (url : string) :
  PyStr.is_ascii url = true -> PyStr.is_ascii (snd (Url.split_plain url)) = true.
Proof.
  intros Hu. unfold Url.split_plain.
  set (u := Url.remove_chars Url.is_unsafe
              (PyStr.lstrip_by Url.is_c0_or_space url)).
  assert (PyStr.is_ascii u = true) as Hascii
    by (by apply is_ascii_remove_chars, is_ascii_lstrip_by).
  assert (PyStr.is_ascii (snd (Url.split_scheme u)) = true) as Hrest.
  { unfold Url.split_scheme.
    destruct (is_ascii_break_at Url.is_colon u Hascii) as [_ H2].
    destruct (Url.break_at Url.is_colon u) as [[|c0 before] [|c after]];
      cbn [snd]; try done.
    cbn [snd PyStr.is_ascii] in H2. apply andb_prop in H2 as [_ H2].
    by destruct (PyStr.is_alpha c0 && Url.all_chars Url.is_scheme_char before). }
  destruct (Url.split_scheme u) as [scheme rest]. cbn [snd] in *.
  unfold Url.split_netloc.
  destruct rest as [|a [|b r]]; [done|all_ascii a; done|].
  cbn [PyStr.is_ascii] in Hrest.
  apply andb_prop in Hrest as [_ Hrest]. apply andb_prop in Hrest as [_ Hrest].
  destruct (is_ascii_break_at Url.is_netloc_end r Hrest) as [H1 _].
  all_ascii a; try done; all_ascii b; try done.
Qed.

Lemma is_ascii_host (netloc : string) :
  PyStr.is_ascii netloc = true ->
  PyStr.is_ascii (if PyStr.contains_char ":" netloc
                  then hd EmptyString (PyStr.split ":" netloc)
                  else netloc) = true.
Proof.
  intros H. destruct (PyStr.contains_char ":" netloc); [|done].
  pose proof (is_ascii_split ":" netloc H) as Hall.
  by destruct Hall.
Qed.






End ReportFacts.

(** X11. The HTML table and the CSV export mirror each other row by row:
    the row of the k-th endpoint is the k-th row of both, numbered k + 1 in
    the table, and the two rows show the same method, path, URL, status
    text and length text.  The name is the summary or, when that is false,
    the operation id: the table prints it as [str] does, the export
    writes the same text, except for [None], which the table prints as
    None and the export leaves empty. *)
Theorem html_and_csv_rows_agree :
  forall (eps : list endpoint) (k : nat) (ep : endpoint),
    eps !! k = Some ep ->
    let name := Json.or (summary ep) (operationId ep) in
    exists h c,
      Render.html_rows_from 1 eps !! k = Some h
      /\ Render.csv_rows eps !! k = Some c
      /\ Render.h_index h = Z.of_nat k + 1
      /\ Render.h_method h = Render.c_method c
      /\ Render.h_path h = Render.c_path c
      /\ Render.h_href h = Render.c_full_url c
      /\ Render.h_status_display h = Render.c_status_display c
      /\ Render.h_length_display h = Render.c_length_display c
      /\ Render.h_name h = Render.py_str name
      /\ Render.c_name c = Render.csv_field name
      /\ (name <> JNull -> Render.h_name h = Render.c_name c)
      /\ (name = JNull ->
          Render.h_name h = Render.Lit "None" /\ Render.c_name c = Render.Lit "").
Proof.
  intros eps k ep Hk name.
  exists (Render.html_row_of (1 + Z.of_nat k) ep), (Render.csv_row_of ep).
  split; [by apply html_rows_lookup|].
  split.
  { unfold Render.csv_rows.
    change (map Render.csv_row_of eps) with (Render.csv_row_of <$> eps).
    by rewrite list_lookup_fmap, Hk. }
  destruct (html_row_plain_cells (1 + Z.of_nat k) ep) as (Hi & Hm & Hp & Hu & Hn).
  split; [rewrite Hi; lia|].
  split; [exact Hm|]. split; [exact Hp|]. split; [exact Hu|].
  split; [apply html_csv_status_display|].
  split; [apply html_csv_length_display|].
  split; [exact Hn|]. split; [reflexivity|].
  rewrite Hn. cbn [Render.c_name Render.csv_row_of]. fold name.
  split.
  - intros Hne. by destruct name.
  - intros ->. by split.
Qed.

Lemma html_and_csv_rows_agree_witness :
  exists h c,
    Render.html_rows_from 1 [answered 404 9; answered 200 2048] !! 1%nat = Some h
    /\ Render.csv_rows [answered 404 9; answered 200 2048] !! 1%nat = Some c
    /\ Render.h_index h = 2
    /\ Render.h_length_display h = Render.c_length_display c
    /\ Render.h_name h = Render.c_name c.
Proof.
  assert ([answered 404 9; answered 200 2048] !! 1%nat = Some (answered 200 2048))
    as Hk by reflexivity.
  destruct (html_and_csv_rows_agree [answered 404 9; answered 200 2048] 1%nat
              (answered 200 2048) Hk)
    as (h & c & Hh & Hc & Hi & _ & _ & _ & _ & Hl & _ & _ & Hn & _).
  exists h, c. repeat split; try done. apply Hn. discriminate.
Defined.

(** X12. When [urlparse] raises on the URL, or finds no network location
    in it, the report file is named api_docs.html.  When the network
    location it finds is made of ASCII characters, as it is for every URL
    of ASCII characters without square brackets, the name is a non-empty
    stem followed by ".html", and the stem is made of letters, digits,
    underscores, hyphens and dots only: the name holds no slash, no colon
    and no other character that could lead out of the working
    directory. *)
Theorem report_file_name_is_safe :
  forall (E : env) (url : string),
    let name := Main.extract_domain_from_url E url in
    let safe :=
      exists stem,
        name = stem ++ ".html"
        /\ stem <> ""
        /\ Url.all_chars is_file_name_char stem = true
        /\ PyStr.contains_char "/" stem = false
        /\ PyStr.contains_char ":" stem = false in
    (forall e, Url.urlparse (lib E) url = Raised e -> name = "api_docs.html")
    /\ (forall scheme netloc,
          Url.urlparse (lib E) url = Returned (scheme, netloc) ->
          (netloc = "" -> name = "api_docs.html")
          /\ (PyStr.is_ascii netloc = true -> safe))
    /\ (Url.plain url = true -> safe).
Proof.
  intros E url name safe.
  assert (forall scheme netloc,
            Url.urlparse (lib E) url = Returned (scheme, netloc) ->
            PyStr.is_ascii netloc = true -> safe) as Hsafe.
  { intros scheme netloc Hp Ha. unfold safe, name, Main.extract_domain_from_url.
    rewrite Hp. cbn [snd].
    pose proof (is_ascii_host netloc Ha) as Hd.
    set (domain := if PyStr.contains_char ":" netloc
                   then hd EmptyString (PyStr.split ":" netloc) else netloc) in *.
    unfold Main.sub_nonword. rewrite Hd.
    set (safe_domain := PyStr.map_chars Main.safe_char domain).
    destruct (PyStr.is_empty safe_domain || String.eqb safe_domain "_") eqn:Hs.
    - exists "api_docs". repeat split; try done.
    - exists safe_domain. apply orb_false_iff in Hs as [Hne _].
      assert (Url.all_chars is_file_name_char safe_domain = true) as Hall
        by apply map_safe_chars.
      destruct (file_name_chars_stay safe_domain Hall) as [H1 H2].
      repeat split; try done. intros Hs. by rewrite Hs in Hne. }
  split; [|split].
  - intros e Hp. unfold name, Main.extract_domain_from_url. by rewrite Hp.
  - intros scheme netloc Hp. split; [|by apply (Hsafe scheme netloc)].
    intros ->. unfold name, Main.extract_domain_from_url. by rewrite Hp.
  - intros Hplain.
    assert (Url.urlparse (lib E) url = Returned (Url.split_plain url)) as Hp
      by (unfold Url.urlparse; by rewrite Hplain).
    destruct (Url.split_plain url) as [scheme netloc] eqn:Hsp.
    apply (Hsafe scheme netloc Hp).
    unfold Url.plain in Hplain.
    apply andb_prop in Hplain as [Hplain _]. apply andb_prop in Hplain as [Ha _].
    pose proof (split_plain_ascii url Ha) as Hn. by rewrite Hsp in Hn.
Qed.

Lemma report_file_name_is_safe_witness :
  Main.extract_domain_from_url timing_out "http://localhost:8080/a/../b?x=1"
  = "localhost.html"
  /\ exists stem,
       Main.extract_domain_from_url timing_out "http://localhost:8080/a/../b?x=1"
       = stem ++ ".html"
       /\ stem <> ""
       /\ PyStr.contains_char "/" stem = false.
Proof.
  assert (Url.plain "http://localhost:8080/a/../b?x=1" = true) as Hp
    by (vm_compute; reflexivity).
  destruct (proj2 (proj2 (report_file_name_is_safe timing_out
                            "http://localhost:8080/a/../b?x=1")) Hp)
    as (stem & Hname & Hne & _ & Hslash & _).
  split; [vm_compute; reflexivity|].
  exists stem. split; [exact Hname|]. split; [exact Hne|exact Hslash].
Defined.


